(** * goproxy: the caching decision engine and the proxy-auth helper

    A shallow embedding of [examples/goproxy-cache/cacher.go] and of
    [ext/auth/basic.go].  Go values are modelled as the code has them:
    [time.Duration] is a signed 64-bit count of nanoseconds with its
    wrap-around written out, an [http.Header] is a reference to a map from
    (canonical) header names to lists of values living in a store of maps,
    a call returning [(value, error)] is a [result] unless the source goes
    on to use the value next to a non-nil error, and the [Cache] interface
    is a set of operations over an abstract cache state whose calls are
    logged. *)

From Stdlib Require Import ZArith String Ascii List Bool Lia.
From stdpp Require Import base tactics option list gmap strings pretty.

Local Open Scope string_scope.
Local Open Scope Z_scope.

(** ** Go primitives *)

Module Go.

Definition min_int64 : Z := - 2 ^ 63.
Definition max_int64 : Z := 2 ^ 63 - 1.

Definition int64 (z : Z) : Prop := min_int64 <= z <= max_int64.

(** Two's complement reduction of a mathematical integer to 64 bits. *)
Definition wrap64 (z : Z) : Z := (z + 2 ^ 63) mod 2 ^ 64 - 2 ^ 63.

Definition sub64 (a b : Z) : Z := wrap64 (a - b).
Definition mul64 (a b : Z) : Z := wrap64 (a * b).

(** [time.Duration]: nanoseconds in an int64. *)
Abbreviation time_Duration := Z (only parsing).

Definition Second : time_Duration := 1000000000.
Definition Hour : time_Duration := 3600 * Second.

(** Go's [error] values that the engine tells apart.  The sentinel
    [ErrNotFoundInCache] is compared with [==] in the source. *)
Inductive error : Type :=
| ErrNotFoundInCache
| MalformedDirective (directive : string)
| ErrOther (msg : string).

#[global] Instance error_eq_dec : EqDecision error.
Proof. solve_decision. Defined.

Definition errorString (e : error) : string :=
  match e with
  | ErrNotFoundInCache => "not found in cache"
  | MalformedDirective d => "malformed directive " ++ d
  | ErrOther msg => msg
  end.

(** A call that yields either a value or a non-nil error. *)
Inductive result (A : Type) : Type :=
| Ok (a : A)
| Err (e : error).
Arguments Ok {A} a.
Arguments Err {A} e.

(** [strings.SplitN(s, sep, 2)] for a one-byte separator: cut at the first
    occurrence of [sep], or give back [s] alone when there is none. *)
Fixpoint cut (sep : ascii) (s : string) : option (string * string) :=
  match s with
  | EmptyString => None
  | String c rest =>
      if Ascii.eqb c sep then Some (EmptyString, rest)
      else match cut sep rest with
           | Some (before, after) => Some (String c before, after)
           | None => None
           end
  end.

Definition SplitN2 (s : string) (sep : ascii) : list string :=
  match cut sep s with
  | Some (before, after) => [before; after]
  | None => [s]
  end.

(** Decimal digits to an integer, [None] on anything else. *)
Definition digit (c : ascii) : option Z :=
  let n := Z.of_nat (nat_of_ascii c) in
  if (48 <=? n) && (n <=? 57) then Some (n - 48) else None.

Fixpoint digits (acc : Z) (s : string) : option Z :=
  match s with
  | EmptyString => Some acc
  | String c rest =>
      match digit c with
      | Some d => digits (10 * acc + d) rest
      | None => None
      end
  end.

Definition atoi (s : string) : option Z :=
  match s with
  | EmptyString => None
  | _ => digits 0 s
  end.

(** What the Go standard library supplies and the engine only calls. *)
Class Runtime := {
  (** [textproto.CanonicalMIMEHeaderKey] *)
  CanonicalMIMEHeaderKey : string -> string;
  (** [base64.StdEncoding.DecodeString]; [None] is a decoding error *)
  DecodeString : string -> option string;
  (** [fmt.Sprintf("%.f", math.Floor(d.Seconds()))] *)
  FormatSeconds : time_Duration -> string
}.

End Go.

Export Go.

(** ** net/http values *)

Module Http.

(** A header map: what an [http.Header] reference points to. *)
Abbreviation HeaderMap := (gmap string (list string)) (only parsing).

(** References to header maps; [http.Header] is a Go map, so copies of
    the value share the map. *)
Abbreviation ref := positive (only parsing).
Abbreviation Heap := (gmap positive (gmap string (list string))) (only parsing).

Section HeaderOps.
Context `{Runtime}.

Definition mapGet (m : HeaderMap) (key : string) : string :=
  match m !! CanonicalMIMEHeaderKey key with
  | Some (v :: _) => v
  | _ => ""
  end.

Definition mapAdd (m : HeaderMap) (key value : string) : HeaderMap :=
  let k := CanonicalMIMEHeaderKey key in
  <[k := (default [] (m !! k) ++ [value])%list]> m.

Definition mapSet (m : HeaderMap) (key value : string) : HeaderMap :=
  <[CanonicalMIMEHeaderKey key := [value]]> m.

Definition mapDel (m : HeaderMap) (key : string) : HeaderMap :=
  delete (CanonicalMIMEHeaderKey key) m.

End HeaderOps.

Record Request := {
  Method : string;
  URL : string;
  ReqHeader : ref;
  TransferEncoding : list string;
  RemoteAddr : string
}.

Definition StatusOK : Z := 200.
Definition StatusNotModified : Z := 304.
Definition StatusInternalServerError : Z := 500.
Definition StatusGatewayTimeout : Z := 504.

End Http.

Export Http.

(** ** The cache decision engine ([examples/goproxy-cache/cacher.go]) *)

Module Cacher.

(** *** Directive Set *)

(** Modelled from the spec: the [CacheControl] type is declared outside
    [cacher.go].  It is a mapping from directive name to the values given
    for it; the source indexes it and takes [len] of the entry, so an
    entry is a (possibly empty) list of values. *)
Abbreviation CacheControl := (gmap string (list string)) (only parsing).

(** Modelled from the spec: [Has(name)] is true iff the directive token
    appears, value ignored. *)
Definition Has (cc : CacheControl) (name : string) : bool :=
  match cc !! name with
  | Some _ => true
  | None => false
  end.

(** [len(cc[name])]: indexing a Go map at an absent key gives the zero
    value, here the nil slice. *)
Definition valueCount (cc : CacheControl) (name : string) : Z :=
  Z.of_nat (length (default [] (cc !! name))).

(** Modelled from the spec: [Duration(name)] parses the directive's value
    as integer seconds and fails with a [MalformedDirective] condition if
    the directive is absent, valueless, or non-numeric.  It is a Go
    [(time.Duration, error)] pair: the duration next to a non-nil error
    is the zero duration, as in every error return of [freshness]. *)
Definition Duration (cc : CacheControl) (name : string)
  : time_Duration * option error :=
  match cc !! name with
  | Some (v :: _) =>
      match atoi v with
      | Some n => (mul64 n Second, None)
      | None => (0, Some (MalformedDirective name))
      end
  | _ => (0, Some (MalformedDirective name))
  end.

(** *** Resource *)

(** Modelled from the spec: the [Resource] type is declared outside
    [cacher.go]; the engine only reads its derived facts, so a resource
    is the record of what its methods answer during one engine call.
    [Header] is the reference to its header map. *)
Record Resource := {
  Status : Z;
  ContentLength : Z;
  Header : ref;
  Age : result time_Duration;
  MaxAge : bool -> result time_Duration;
  HeuristicFreshness : time_Duration;
  IsStale : bool;
  MustValidate : bool -> bool;
  HasExplicitExpiration : bool;
  Via : string
}.

(** *** Cache Key and Cache Request *)

(** The [Key] type of the repository, declared outside [cacher.go], is
    taken as given: an opaque identity with a string form, a variant for
    another method, and a variant for the request headers a [Vary] value
    names (read from the request's header map). *)
Class KeyModel := {
  Key : Type;
  Key_String : Key -> string;
  Key_ForMethod : Key -> string -> Key;
  Key_Vary : Key -> string -> Request -> HeaderMap -> Key
}.

(** Modelled from the spec: a Cache Request holds the original request,
    its directive set, its cache key and a boolean cacheability verdict
    (the answer of [IsCacheable()]). *)
Record cacheRequest `{KeyModel} := {
  crRequest : Request;
  crKey : Key;
  crCacheControl : CacheControl;
  IsCacheable : bool
}.

(** *** Freshness Evaluator and Validation Decider *)

Section Decide.
Context `{KeyModel}.

(** [freshness] returns the duration that a requested resource will be
    fresh for. *)
Definition freshness (shared : bool) (resource : Resource)
    (cacheRequest : cacheRequest) : result time_Duration :=
  match MaxAge resource shared with
  | Err err => Err err
  | Ok maxAge =>
      let overridden : result time_Duration :=
        if Has (crCacheControl cacheRequest) "max-age" then
          match Duration (crCacheControl cacheRequest) "max-age" with
          | (_, Some err) => Err err
          | (reqMaxAge, None) =>
              Ok (if reqMaxAge <? maxAge then reqMaxAge else maxAge)
          end
        else Ok maxAge in
      match overridden with
      | Err err => Err err
      | Ok maxAge =>
          match Age resource with
          | Err err => Err err
          | Ok age =>
              if IsStale resource then Ok 0
              else
                let hFresh := HeuristicFreshness resource in
                let maxAge := if hFresh >? maxAge then hFresh else maxAge in
                Ok (sub64 maxAge age)
          end
      end
  end.

Definition needsValidation (shared : bool) (resource : Resource)
    (cacheRequest : cacheRequest) : bool :=
  if MustValidate resource shared then true
  else
    match freshness shared resource cacheRequest with
    | Err _ => true
    | Ok freshness =>
        let cc := crCacheControl cacheRequest in
        let minFreshFails :=
          if Has cc "min-fresh" then
            match Duration cc "min-fresh" with
            | (_, Some _) => true
            | (reqMinFresh, None) => freshness <? reqMinFresh
            end
          else false in
        if minFreshFails then true
        else if (freshness <=? 0) && Has cc "max-stale" then
          if valueCount cc "max-stale" =? 0 then false
          else
            let maxStale := fst (Duration cc "max-stale") in
            if maxStale >=? mul64 freshness (-1) then false
            else freshness <=? 0
        else freshness <=? 0
    end.

End Decide.

(** *** Responses, the collaborators and the world they act on *)

(** An [io.ReadCloser] as the engine sees one: the body stream of an
    origin response, a resource serving as its own body, or the
    package's [BufferReadCloser] over a string. *)
Inductive ReadCloser : Type :=
| OriginBody (stream : nat)
| ResourceBody (resource : Resource)
| BufferReadCloser (buffer : string).

(** The fields of [http.Response] the engine reads or writes. *)
Record Response := {
  RespRequest : Request;
  RespTransferEncoding : list string;
  RespHeader : ref;
  RespContentLength : Z;
  StatusCode : Z;
  Body : ReadCloser
}.

(** Code of the repository that [cacher.go] calls and that is declared
    elsewhere, and the consumed [Cache] interface.  [res] is the
    identifier handed to [cache.Store] in [newCacheAndForwardResponse];
    [cacher.go] does not declare it. *)
Class Engine `{KeyModel} := {
  NewCacheRequest : Request -> HeaderMap -> result cacheRequest;
  NewResource : Z -> Z -> ReadCloser -> ref -> Resource;
  RemovePrivateHeaders : HeaderMap -> HeaderMap;
  res : Resource;
  CacheState : Type;
  Retrieve : CacheState -> string -> result Resource * CacheState;
  Store : CacheState -> Resource -> list string -> option error * CacheState;
  Freshen : CacheState -> Resource -> string -> option error * CacheState
}.

Definition ContentTypeText : string := "text/plain".

Definition quote : string := String (ascii_of_nat 34) EmptyString.

Definition warning113 : string :=
  "113 - " ++ quote ++ "Heuristic Expiration" ++ quote.
Definition warning110 : string :=
  "110 - " ++ quote ++ "Response is Stale" ++ quote.

Section Orchestrate.
Context `{Runtime} `{KeyModel} `{!Engine}.

(** Calls made on the [Cache] interface, in order. *)
Inductive CacheCall : Type :=
| CallRetrieve (key : string)
| CallStore (resource : Resource) (keys : list string)
| CallFreshen (resource : Resource) (key : string).

(** Everything an engine call can read or change: the header maps, the
    state behind the [Cache] interface, and the log of calls on it. *)
Record World := {
  heap : Heap;
  cache : CacheState;
  calls : list CacheCall
}.

Definition M (A : Type) : Type := World -> A * World.

#[export] Instance M_ret : MRet M := fun A a w => (a, w).
#[export] Instance M_bind : MBind M :=
  fun A B f m w => let '(a, w') := m w in f a w'.

Definition withHeap (f : Heap -> Heap) (w : World) : World :=
  {| heap := f (heap w); cache := cache w; calls := calls w |}.

(** A reference no map of the heap lives at: one past the largest. *)
Definition freshRef (h : Heap) : ref :=
  Pos.succ (foldr Pos.max 1%positive (fst <$> map_to_list h)).

(** [make(http.Header)] *)
Definition make_Header : M ref :=
  fun w => let l := freshRef (heap w) in (l, withHeap (insert l ∅) w).

(** Reading through a header reference; a nil map reads as empty. *)
Definition readHeader (l : ref) : M HeaderMap :=
  fun w => (default ∅ (heap w !! l), w).

Definition updateHeader (l : ref) (f : HeaderMap -> HeaderMap) : M unit :=
  fun w => (tt, withHeap (alter f l) w).

(** [textproto.MIMEHeader(h).Add(key, value)] and [.Set(key, value)] *)
Definition Header_Add (l : ref) (key value : string) : M unit :=
  updateHeader l (fun m => mapAdd m key value).
Definition Header_Set (l : ref) (key value : string) : M unit :=
  updateHeader l (fun m => mapSet m key value).

Definition cache_Retrieve (key : string) : M (result Resource) :=
  fun w => let '(r, c) := Retrieve (cache w) key in
           (r, {| heap := heap w; cache := c;
                  calls := calls w ++ [CallRetrieve key] |}).

Definition cache_Store (resource : Resource) (keys : list string)
  : M (option error) :=
  fun w => let '(e, c) := Store (cache w) resource keys in
           (e, {| heap := heap w; cache := c;
                  calls := calls w ++ [CallStore resource keys] |}).

Definition cache_Freshen (resource : Resource) (key : string)
  : M (option error) :=
  fun w => let '(e, c) := Freshen (cache w) resource key in
           (e, {| heap := heap w; cache := c;
                  calls := calls w ++ [CallFreshen resource key] |}).

(** A [for ... range] loop over the elements of a list. *)
Fixpoint forEach {A : Type} (l : list A) (body : A -> M unit) : M unit :=
  match l with
  | [] => mret tt
  | x :: rest => _ ← body x; forEach rest body
  end.

(** Modelled from the spec: [goproxy.NewResponse], declared in the
    [goproxy] package and not in [cacher.go], synthesizes a response with
    the given status and a body of the given content type. *)
Definition goproxy_NewResponse (r : Request) (contentType : string)
    (status : Z) (body : string) : M Response :=
  h ← make_Header;
  _ ← Header_Add h "Content-Type" contentType;
  mret {| RespRequest := r;
          RespTransferEncoding := TransferEncoding r;
          RespHeader := h;
          RespContentLength := Z.of_nat (String.length body);
          StatusCode := status;
          Body := BufferReadCloser body |}.

(** *** Response Reconstructor *)

(** The five results of the source are [(500, -1, nil, nil, err)] on
    failure, where every caller reads [err] only; they are modelled as
    [Err err].  Go leaves the order of a [range] over a map open;
    [map_to_list] fixes one.  [log.Printf] calls are not modelled. *)
Definition newResponseParameters (shared : bool)
    (cacheRequest : cacheRequest) (resource : Resource)
  : M (result (Z * Z * ref * ReadCloser)) :=
  match Age resource with
  | Err err => mret (Err err)
  | Ok age =>
      let contentLength := ContentLength resource in
      let statusCode := Status resource in
      headers ← make_Header;
      source ← readHeader (Header resource);
      _ ← forEach (map_to_list source) (fun entry =>
             forEach (snd entry) (fun header =>
               Header_Add headers (fst entry) header));
      _ ← (if (age >? Hour * 24)
                && (HeuristicFreshness resource >? Hour * 24)
            then Header_Add headers "Warning" warning113
            else mret tt);
      _ ← (match freshness shared resource cacheRequest with
            | Err _ => Header_Add headers "Warning" warning110
            | Ok freshness =>
                if freshness <=? 0
                then Header_Add headers "Warning" warning110
                else mret tt
            end);
      _ ← Header_Set headers "Age" (FormatSeconds age);
      _ ← Header_Set headers "Via" (Via resource);
      let body := ResourceBody resource in
      mret (Ok (statusCode, contentLength, headers, body))
  end.

(** [body.Close()] has no effect on anything modelled here. *)
Definition newResponse (request : Request) (statusCode : Z)
    (contentLength : Z) (headers : ref) (body : ReadCloser) : Response :=
  {| RespRequest := request;
     RespTransferEncoding := TransferEncoding request;
     RespHeader := headers;
     RespContentLength := contentLength;
     StatusCode := statusCode;
     Body := if String.eqb (Method request) "HEAD"
                || negb (statusCode =? StatusOK)
             then BufferReadCloser ""
             else body |}.

Definition newCachedResponse (shared : bool)
    (cacheRequest : cacheRequest) (resource : Resource) : M Response :=
  r ← newResponseParameters shared cacheRequest resource;
  match r with
  | Err err =>
      goproxy_NewResponse (crRequest cacheRequest) ContentTypeText
        StatusInternalServerError
        ("Error calculating age: " ++ errorString err)
  | Ok (statusCode, contentLength, headers, body) =>
      mret (newResponse (crRequest cacheRequest) statusCode
              contentLength headers body)
  end.

Definition newCacheAndForwardResponse (shared : bool)
    (cacheRequest : cacheRequest) (response : Response) : M Response :=
  let statusCode := StatusCode response in
  let contentLength := RespContentLength response in
  let body := Body response in
  let headers := RespHeader response in
  let keys := [Key_String (crKey cacheRequest)] in
  headerMap ← readHeader headers;
  requestMap ← readHeader (ReqHeader (crRequest cacheRequest));
  let vary := mapGet headerMap "Vary" in
  let keys :=
    if negb (String.eqb vary "")
    then (keys ++ [Key_String (Key_Vary (crKey cacheRequest) vary
                                 (crRequest cacheRequest) requestMap)])%list
    else keys in
  _ ← cache_Store res keys;
  let resource := NewResource statusCode contentLength body headers in
  _ ← (if shared
        then updateHeader (Header resource) RemovePrivateHeaders
        else mret tt);
  r ← newResponseParameters shared cacheRequest resource;
  match r with
  | Err _ => mret response
  | Ok (statusCode, contentLength, headers, body) =>
      mret (newResponse (crRequest cacheRequest) statusCode
              contentLength headers body)
  end.

(** *** Lookup *)

(** The source returns [(resource, err)]; no caller reads the resource
    next to a non-nil error, so a failed lookup is [Err err]. *)
Definition lookup (cacheRequest : cacheRequest) : M (result Resource) :=
  let cacheKey := Key_String (crKey cacheRequest) in
  r ← cache_Retrieve cacheKey;
  match r with
  | Err err =>
      if bool_decide (err = ErrNotFoundInCache)
         && String.eqb (Method (crRequest cacheRequest)) "HEAD"
      then
        r ← cache_Retrieve
              (Key_String (Key_ForMethod (crKey cacheRequest) "GET"));
        match r with
        | Err err => mret (Err err)
        | Ok resource =>
            if HasExplicitExpiration resource && IsCacheable cacheRequest
            then mret (Ok resource)
            else mret (Err ErrNotFoundInCache)
        end
      else mret (Err err)
  | Ok resource =>
      headerMap ← readHeader (Header resource);
      let vary := mapGet headerMap "Vary" in
      if negb (String.eqb vary "") then
        requestMap ← readHeader (ReqHeader (crRequest cacheRequest));
        r ← cache_Retrieve
              (Key_String (Key_Vary (crKey cacheRequest) vary
                             (crRequest cacheRequest) requestMap));
        match r with
        | Err err => mret (Err err)
        | Ok resource => mret (Ok resource)
        end
      else mret (Ok resource)
  end.

(** *** Store/Forward Orchestrator *)

(** The request path.  A [nil] response tells the proxy to forward the
    request to the origin. *)
Definition TryServeCachedResponse (shared : bool) (request : Request)
  : M (Request * option Response) :=
  requestMap ← readHeader (ReqHeader request);
  match NewCacheRequest request requestMap with
  | Err err =>
      r ← goproxy_NewResponse request ContentTypeText
            StatusInternalServerError (errorString err);
      mret (request, Some r)
  | Ok cacheRequest =>
      if negb (IsCacheable cacheRequest) then mret (request, None)
      else
        found ← lookup cacheRequest;
        match found with
        | Err err =>
            if negb (bool_decide (err = ErrNotFoundInCache)) then
              r ← goproxy_NewResponse request ContentTypeText
                    StatusInternalServerError (errorString err);
              mret (request, Some r)
            else if Has (crCacheControl cacheRequest) "only-if-cached" then
              r ← goproxy_NewResponse request ContentTypeText
                    StatusGatewayTimeout "key not in cache";
              mret (request, Some r)
            else mret (request, None)
        | Ok resource =>
            if needsValidation shared resource cacheRequest then
              if Has (crCacheControl cacheRequest) "only-if-cached" then
                r ← goproxy_NewResponse request ContentTypeText
                      StatusGatewayTimeout "key not in cache";
                mret (request, Some r)
              else mret (request, None)
            else
              response ← newCachedResponse shared cacheRequest resource;
              mret (request, Some response)
        end
  end.

(** The response path.  In the [200] branch [err] is still the nil
    error of [NewCacheRequest]: the [err] of the [304] branch is a
    variable of that block. *)
Definition TryCacheResponse (shared : bool) (response : Response)
  : M Response :=
  if negb (StatusCode response =? StatusOK)
     || negb (StatusCode response =? StatusNotModified)
  then mret response
  else
    requestMap ← readHeader (ReqHeader (RespRequest response));
    match NewCacheRequest (RespRequest response) requestMap with
    | Err err =>
        goproxy_NewResponse (RespRequest response) ContentTypeText
          StatusInternalServerError (errorString err)
    | Ok cacheRequest =>
        let err : option error := None in
        if negb (IsCacheable cacheRequest) then mret response
        else if StatusCode response =? StatusNotModified then
          found ← lookup cacheRequest;
          match found with
          | Err err =>
              if negb (bool_decide (err = ErrNotFoundInCache)) then
                goproxy_NewResponse (RespRequest response) ContentTypeText
                  StatusInternalServerError (errorString err)
              else mret response
          | Ok resource =>
              _ ← cache_Freshen resource
                    (Key_String (Key_ForMethod (crKey cacheRequest) "GET"));
              newCachedResponse shared cacheRequest resource
          end
        else if StatusCode response =? StatusOK then
          if negb (bool_decide (err = Some ErrNotFoundInCache))
          then mret response
          else newCacheAndForwardResponse shared cacheRequest response
        else mret response
    end.

(** *** Frames *)

(** [touchesOnly l w w']: from [w] to [w'] nothing changed but,
    possibly, the header map at [l]; no map went away. *)
Definition touchesOnly (l : ref) (w w' : World) : Prop :=
  cache w' = cache w
  /\ calls w' = calls w
  /\ (forall l', l' <> l -> heap w' !! l' = heap w !! l')
  /\ (is_Some (heap w !! l) -> is_Some (heap w' !! l)).

Definition writesOnly {A : Type} (l : ref) (m : M A) : Prop :=
  forall w, touchesOnly l w (snd (m w)).

(** [keepsKey l key w w']: the map at [l] answers the same at [key]. *)
Definition keepsKey (l : ref) (key : string) (w w' : World) : Prop :=
  default ∅ (heap w' !! l) !! key = default ∅ (heap w !! l) !! key.

(** What the copying loop of [newResponseParameters] makes of a header
    map [m], entry by entry and value by value. *)
Definition addValues (key : string) (values : list string) (m : HeaderMap)
  : HeaderMap :=
  foldl (fun m value => mapAdd m key value) m values.

Definition copyHeaders (entries : list (string * list string))
    (m : HeaderMap) : HeaderMap :=
  foldl (fun m entry => addValues (fst entry) (snd entry) m) m entries.

End Orchestrate.

End Cacher.

(** ** The proxy-auth helper ([ext/auth/basic.go]) *)

Module Auth.

(** [AuthWithAddrFunc] is an external authenticator contract: it is
    handed three strings and answers with three strings and a verdict. *)
Definition AuthWithAddrFunc : Type :=
  string -> string -> string -> string * string * string * bool.

(** What [auth] does to the request and to its callback, in order. *)
Inductive Event : Type :=
| HeaderDel (header : ref) (key : string)
| CredentialCheck (RemoteAddr user passwd : string).

Record State := {
  heap : Heap;
  trace : list Event
}.

Definition proxyAuthorizationHeader : string := "Proxy-Authorization".

Definition space : ascii := ascii_of_nat 32.
Definition colon : ascii := ascii_of_nat 58.

Section Helper.
Context `{Runtime}.

(** [req.Header.Get(key)]; a nil map reads as empty. *)
Definition Header_Get (req : Request) (key : string) (st : State) : string :=
  mapGet (default ∅ (heap st !! ReqHeader req)) key.

(** [req.Header.Del(key)]: deletes in the map the request refers to. *)
Definition Header_Del (req : Request) (key : string) (st : State) : State :=
  {| heap := alter (fun m => mapDel m key) (ReqHeader req) (heap st);
     trace := (trace st ++ [HeaderDel (ReqHeader req) key])%list |}.

Definition call (f : AuthWithAddrFunc) (RemoteAddr user passwd : string)
    (st : State) : string * string * string * bool * State :=
  (f RemoteAddr user passwd,
   {| heap := heap st;
      trace := (trace st ++ [CredentialCheck RemoteAddr user passwd])%list |}).

Definition auth (req : Request) (f : AuthWithAddrFunc) (st : State)
  : string * string * string * bool * State :=
  let authheader :=
    SplitN2 (Header_Get req proxyAuthorizationHeader st) space in
  let st := Header_Del req proxyAuthorizationHeader st in
  match authheader with
  | [scheme; credentials] =>
      if negb (String.eqb scheme "Basic") then ("", "", "", false, st)
      else
        match DecodeString credentials with
        | None => ("", "", "", false, st)
        | Some userpassraw =>
            match SplitN2 userpassraw colon with
            | [user; passwd] => call f (RemoteAddr req) user passwd st
            | _ => ("", "", "", false, st)
            end
        end
  | _ => ("", "", "", false, st)
  end.

End Helper.

End Auth.

(** ** Concrete collaborators and scenarios

    One instance of everything the models above take as given, and the
    values of the scenarios the theorems are run on. *)

Module Sample.
Import Cacher.

(** Header names as [textproto] spells them: a capital after each
    hyphen and at the start, small letters elsewhere. *)
Definition upper (c : ascii) : ascii :=
  let n := nat_of_ascii c in
  if ((97 <=? n) && (n <=? 122))%nat then ascii_of_nat (n - 32) else c.
Definition lower (c : ascii) : ascii :=
  let n := nat_of_ascii c in
  if ((65 <=? n) && (n <=? 90))%nat then ascii_of_nat (n + 32) else c.

Fixpoint canonical (up : bool) (s : string) : string :=
  match s with
  | EmptyString => EmptyString
  | String c rest =>
      String (if up then upper c else lower c)
             (canonical (Ascii.eqb c (ascii_of_nat 45)) rest)
  end.

(** The standard base64 alphabet, four characters to three bytes, with
    [=] padding in the last group only. *)
Definition sextet (c : ascii) : option N :=
  let n := N_of_ascii c in
  (if (65 <=? n) && (n <=? 90) then Some (n - 65)
   else if (97 <=? n) && (n <=? 122) then Some (n - 71)
   else if (48 <=? n) && (n <=? 57) then Some (n + 4)
   else if n =? 43 then Some 62
   else if n =? 47 then Some 63
   else None)%N.

Definition pad : ascii := ascii_of_nat 61.

Definition byte1 (x y : N) : ascii :=
  ascii_of_N ((x * 4 + y / 16) mod 256).
Definition byte2 (y z : N) : ascii :=
  ascii_of_N ((y * 16 + z / 4) mod 256).
Definition byte3 (z w : N) : ascii :=
  ascii_of_N ((z * 64 + w) mod 256).

Fixpoint base64 (s : string) : option string :=
  match s with
  | EmptyString => Some EmptyString
  | String a (String b (String c (String d rest))) =>
      match sextet a, sextet b with
      | Some x, Some y =>
          if Ascii.eqb c pad then
            if Ascii.eqb d pad && String.eqb rest ""
            then Some (String (byte1 x y) EmptyString)
            else None
          else
            match sextet c with
            | Some z =>
                if Ascii.eqb d pad then
                  if String.eqb rest ""
                  then Some (String (byte1 x y)
                               (String (byte2 y z) EmptyString))
                  else None
                else
                  match sextet d, base64 rest with
                  | Some w, Some tail =>
                      Some (String (byte1 x y)
                              (String (byte2 y z)
                                 (String (byte3 z w) tail)))
                  | _, _ => None
                  end
            | None => None
            end
      | _, _ => None
      end
  | _ => None
  end.

Definition secondsString (d : time_Duration) : string :=
  pretty (d / Second).

#[export] Instance runtime : Runtime := {
  CanonicalMIMEHeaderKey := canonical true;
  DecodeString := base64;
  FormatSeconds := secondsString
}.

(** Keys: method, URL and the selected request header values. *)
Definition keyString (k : string * string * string) : string :=
  let '(method, url, vary) := k in
  if String.eqb vary "" then method ++ ":" ++ url
  else method ++ ":" ++ url ++ "::" ++ vary.

#[export] Instance keys : KeyModel := {
  Key := string * string * string;
  Key_String := keyString;
  Key_ForMethod := fun k method => (method, snd (fst k), snd k);
  Key_Vary := fun k vary request headers =>
    (fst (fst k), snd (fst k), vary ++ "=" ++ mapGet headers vary)
}.

(** A [Cache-Control] line split at commas, blanks dropped, each token
    cut at its first [=]. *)
Fixpoint tokens (current : string) (s : string) : list string :=
  match s with
  | EmptyString => [String.rev current]
  | String c rest =>
      if Ascii.eqb c (ascii_of_nat 44)
      then String.rev current :: tokens EmptyString rest
      else if Ascii.eqb c (ascii_of_nat 32) then tokens current rest
      else tokens (String c current) rest
  end.

Definition directive (cc : CacheControl) (token : string) : CacheControl :=
  if String.eqb token "" then cc
  else match cut (ascii_of_nat 61) token with
       | Some (name, value) =>
           <[name := (default [] (cc !! name) ++ [value])%list]> cc
       | None => <[token := default [] (cc !! token)]> cc
       end.

Definition parseCacheControl (line : string) : CacheControl :=
  foldl directive ∅ (tokens EmptyString line).

Definition cacheable (request : Request) (cc : CacheControl) : bool :=
  (String.eqb (Method request) "GET" || String.eqb (Method request) "HEAD")
  && negb (Has cc "no-store").

Definition sampleNewCacheRequest (request : Request) (headers : HeaderMap)
  : result cacheRequest :=
  let cc := parseCacheControl (mapGet headers "Cache-Control") in
  Ok {| crRequest := request;
        crKey := (Method request, URL request, "");
        crCacheControl := cc;
        IsCacheable := cacheable request cc |}.

Definition seconds (n : Z) : time_Duration := n * Second.

(** A resource aged [age] seconds under an origin [max-age] of
    [maxAge] seconds, with its header map at [headers]. *)
Definition resourceOf (headers : ref) (age maxAge heuristic : Z)
    (stale mustValidate explicit : bool) : Resource :=
  {| Status := 200;
     ContentLength := 5;
     Header := headers;
     Age := Ok (seconds age);
     MaxAge := fun _ => Ok (seconds maxAge);
     HeuristicFreshness := seconds heuristic;
     IsStale := stale;
     MustValidate := fun _ => mustValidate;
     HasExplicitExpiration := explicit;
     Via := "1.1 goproxy" |}.

#[export] Instance engine : Engine := {
  NewCacheRequest := sampleNewCacheRequest;
  NewResource := fun status contentLength body headers =>
    {| Status := status;
       ContentLength := contentLength;
       Header := headers;
       Age := Ok 0;
       MaxAge := fun _ => Ok (seconds 60);
       HeuristicFreshness := 0;
       IsStale := false;
       MustValidate := fun _ => false;
       HasExplicitExpiration := true;
       Via := "1.1 goproxy" |};
  RemovePrivateHeaders := fun m => delete "Set-Cookie" m;
  res := resourceOf 1%positive 0 60 0 false false true;
  CacheState := gmap string Resource;
  Retrieve := fun c key =>
    match c !! key with
    | Some resource => (Ok resource, c)
    | None => (Err ErrNotFoundInCache, c)
    end;
  Store := fun c resource keys =>
    (None, foldr (fun key c => <[key := resource]> c) c keys);
  Freshen := fun c resource key => (None, c)
}.

Definition requestOf (method : string) (headers : ref) : Request :=
  {| Method := method;
     URL := "http://example.org/x";
     ReqHeader := headers;
     TransferEncoding := [];
     RemoteAddr := "10.0.0.7:4711" |}.

(** Header map 1 holds [Cache-Control: only-if-cached], header map 2 is
    empty, header map 3 belongs to a stored resource. *)
Definition sampleHeap : Heap :=
  {[ 1%positive := {[ "Cache-Control" := ["only-if-cached"] ]};
     2%positive := ∅;
     3%positive := {[ "Content-Type" := ["text/html"];
                      "Set-Cookie" := ["id=7"] ]} ]}.

Definition requestWith (cc : CacheControl) (method : string) : cacheRequest :=
  {| crRequest := requestOf method 2%positive;
     crKey := (method, "http://example.org/x", "");
     crCacheControl := cc;
     IsCacheable := true |}.

Definition emptyWorld : World :=
  {| heap := sampleHeap; cache := (∅ : gmap string Resource); calls := [] |}.

Definition stored : Resource := resourceOf 3%positive 10 60 0 false false true.

(** A cache populated through [GET] only. *)
Definition getWorld : World :=
  {| heap := sampleHeap;
     cache := ({[ "GET:http://example.org/x" := stored ]}
               : gmap string Resource);
     calls := [] |}.

(** An origin's [200] answer to a cacheable [GET]. *)
Definition okResponse : Response :=
  {| RespRequest := requestOf "GET" 2%positive;
     RespTransferEncoding := [];
     RespHeader := 3%positive;
     RespContentLength := 5;
     StatusCode := StatusOK;
     Body := OriginBody 0 |}.

End Sample.

Module AuthSample.
Import Auth Sample.

(** Accepts [user] with password [pass], and hands the address back. *)
Definition checker : AuthWithAddrFunc :=
  fun RemoteAddr user passwd =>
    (RemoteAddr, user, passwd,
     String.eqb user "user" && String.eqb passwd "pass").

(** A request whose header map, map 1, holds the given
    [Proxy-Authorization] line next to a [Host] line. *)
Definition stateWith (line : string) : State :=
  {| heap := {[ 1%positive := {[ "Proxy-Authorization" := [line];
                                 "Host" := ["example.org"] ]} ]};
     trace := [] |}.

Definition bare : State :=
  {| heap := {[ 1%positive := {[ "Host" := ["example.org"] ]} ]};
     trace := [] |}.

Definition request : Request := requestOf "GET" 1.

Definition headersAfter (st : State) : list (string * list string) :=
  map_to_list (default ∅ (heap st !! 1%positive)).

End AuthSample.

(** ** Views of the engine's runs *)

Module Views.
Import Cacher.

Section Views.
Context `{Runtime} `{KeyModel} `{!Engine}.

(** Whether [newResponseParameters] adds warning 113, and warning 110. *)
Definition heuristicWarning (resource : Resource) (age : Z) : bool :=
  (age >? Hour * 24) && (HeuristicFreshness resource >? Hour * 24).

Definition staleWarning (shared : bool) (resource : Resource)
    (request : cacheRequest) : bool :=
  match freshness shared resource request with
  | Ok f => f <=? 0
  | Err _ => true
  end.

(** The header map [newResponseParameters] builds from the header map
    [source] of a resource whose age is [age]. *)
Definition rebuiltHeaders (shared : bool) (request : cacheRequest)
    (resource : Resource) (age : Z) (source : HeaderMap) : HeaderMap :=
  let copied := copyHeaders (map_to_list source) ∅ in
  let warned1 := if heuristicWarning resource age
                 then mapAdd copied "Warning" warning113 else copied in
  let warned2 := if staleWarning shared resource request
                 then mapAdd warned1 "Warning" warning110 else warned1 in
  mapSet (mapSet warned2 "Age" (FormatSeconds age)) "Via" (Via resource).

(** [preserves w w']: every header map of [w] is in [w'] as it was. *)
Definition preserves (w w' : World) : Prop :=
  forall l, is_Some (heap w !! l) -> heap w' !! l = heap w !! l.

(** [quiet w w']: no call was made on the cache and every header map of
    [w] is in [w'] as it was. *)
Definition quiet (w w' : World) : Prop :=
  cache w' = cache w /\ calls w' = calls w /\ preserves w w'.

(** [retrieved keys w w']: the calls made on the cache between [w] and
    [w'] are the [Retrieve] calls for [keys], in that order. *)
Definition retrieved (keys : list string) (w w' : World) : Prop :=
  calls w' = (calls w ++ (CallRetrieve <$> keys))%list.

(** The keys [lookup] may ask the cache for. *)
Definition primaryKey (request : cacheRequest) : string :=
  Key_String (crKey request).
Definition getKey (request : cacheRequest) : string :=
  Key_String (Key_ForMethod (crKey request) "GET").
Definition varyKey (request : cacheRequest) (vary : string) (w : World)
  : string :=
  Key_String (Key_Vary (crKey request) vary (crRequest request)
                (default ∅ (heap w !! ReqHeader (crRequest request)))).

(** The keys [newCacheAndForwardResponse] stores under. *)
Definition storeKeys (request : cacheRequest) (response : Response)
    (w : World) : list string :=
  let vary := mapGet (default ∅ (heap w !! RespHeader response)) "Vary" in
  primaryKey request
  :: (if String.eqb vary "" then [] else [varyKey request vary w]).

End Views.

End Views.

(** ** The request handlers of [ext/auth/basic.go] *)

Module Handlers.
Import Auth.

(** Whether the byte [c] occurs in [s]. *)
Fixpoint contains (c : ascii) (s : string) : bool :=
  match s with
  | EmptyString => false
  | String c' rest => Ascii.eqb c' c || contains c rest
  end.

(** The fields of [http.Response] that [BasicUnauthorized] sets; the
    request is held by reference and the body is what the reader over
    [unauthorizedMsg] yields. *)
Record Response := {
  StatusCode : Z;
  ProtoMajor : Z;
  ProtoMinor : Z;
  RespRequest : ref;
  RespHeader : ref;
  Body : string;
  ContentLength : Z
}.

Definition unauthorizedMsg : string := "407 Proxy Authentication Required".

(** The fields of [goproxy.ProxyCtx], declared outside [basic.go], that
    the handlers read or write. *)
Record ProxyCtx := {
  Req : ref;
  Resp : option Response;
  User : string;
  Password : string
}.

(** [goproxy.OkConnect] and [goproxy.RejectConnect]. *)
Inductive ConnectAction : Type :=
| OkConnect
| RejectConnect.

(** The header maps with the trace of [auth], and the requests that
    request pointers refer to. *)
Record Process := {
  state : State;
  requests : gmap positive Request
}.

Definition setRemoteAddr (r : Request) (remoteAddr : string) : Request :=
  {| Method := Method r;
     URL := URL r;
     ReqHeader := ReqHeader r;
     TransferEncoding := TransferEncoding r;
     RemoteAddr := remoteAddr |}.

(** The map literal of [BasicUnauthorized] is a new map. *)
Definition BasicUnauthorized (req : ref) (realm : string) (st : State)
  : Response * State :=
  let l := Cacher.freshRef (heap st) in
  ({| StatusCode := 407;
      ProtoMajor := 1;
      ProtoMinor := 1;
      RespRequest := req;
      RespHeader := l;
      Body := unauthorizedMsg;
      ContentLength := Z.of_nat (String.length unauthorizedMsg) |},
   {| heap := <[l := {[ "Proxy-Authenticate" := ["Basic realm=" ++ realm];
                        "Proxy-Connection" := ["close"] ]}]> (heap st);
      trace := trace st |}).

Section Handlers.
Context `{Runtime}.

(** The handler [BasicWithAddr] returns, run on a request pointer and a
    context.  [None] is the panic of a nil pointer dereference. *)
Definition BasicWithAddr (realm : string) (f : AuthWithAddrFunc)
    (req : ref) (ctx : ProxyCtx) (p : Process)
  : option (option ref * option Response * ProxyCtx * Process) :=
  r ← requests p !! req;
  let '(remoteAddr, user, pass, ok, st) := auth r f (state p) in
  if negb ok then
    let '(response, st) := BasicUnauthorized req realm st in
    Some (None, Some response, ctx, {| state := st; requests := requests p |})
  else
    target ← requests p !! Req ctx;
    Some (Some req, None,
          {| Req := Req ctx; Resp := Resp ctx;
             User := user; Password := pass |},
          {| state := st;
             requests := <[Req ctx := setRemoteAddr target remoteAddr]>
                           (requests p) |}).

Definition Basic (realm : string) (f : string -> string -> bool)
  : ref -> ProxyCtx -> Process
    -> option (option ref * option Response * ProxyCtx * Process) :=
  BasicWithAddr realm
    (fun RemoteAddr user passwd => (RemoteAddr, user, passwd, f user passwd)).

(** The handler [BasicConnectWithAddr] returns, run on a host and a
    context. *)
Definition BasicConnectWithAddr (realm : string) (f : AuthWithAddrFunc)
    (host : string) (ctx : ProxyCtx) (p : Process)
  : option (ConnectAction * string * ProxyCtx * Process) :=
  r ← requests p !! Req ctx;
  let '(remoteAddr, user, pass, ok, st) := auth r f (state p) in
  if negb ok then
    let '(response, st) := BasicUnauthorized (Req ctx) realm st in
    Some (RejectConnect, host,
          {| Req := Req ctx; Resp := Some response;
             User := User ctx; Password := Password ctx |},
          {| state := st; requests := requests p |})
  else
    Some (OkConnect, host,
          {| Req := Req ctx; Resp := Resp ctx;
             User := user; Password := pass |},
          {| state := st;
             requests := <[Req ctx := setRemoteAddr r remoteAddr]>
                           (requests p) |}).

Definition BasicConnect (realm : string) (f : string -> string -> bool)
  : string -> ProxyCtx -> Process
    -> option (ConnectAction * string * ProxyCtx * Process) :=
  BasicConnectWithAddr realm
    (fun RemoteAddr user passwd => (RemoteAddr, user, passwd, f user passwd)).

End Handlers.

End Handlers.

(** ** More scenarios *)

Module MoreSample.
Import Cacher Sample.

(** Header map 5 belongs to a stored resource that varies on
    [Accept-Encoding]; header map 6 is a request's, asking for [gzip]. *)
Definition varyHeap : Heap :=
  {[ 5%positive := {[ "Vary" := ["Accept-Encoding"];
                      "Warning" := ["199 - old"] ]};
     6%positive := {[ "Accept-Encoding" := ["gzip"] ]} ]}.

Definition varying : Resource := resourceOf 5%positive 10 60 0 false false true.

Definition gzipRequest : cacheRequest :=
  {| crRequest := requestOf "GET" 6%positive;
     crKey := ("GET", "http://example.org/x", "");
     crCacheControl := ∅;
     IsCacheable := true |}.

(** The primary key holds the varying resource; no variant is stored. *)
Definition varyWorld : World :=
  {| heap := varyHeap;
     cache := ({[ "GET:http://example.org/x" := varying ]}
               : gmap string Resource);
     calls := [] |}.

(** A resource two days old whose heuristic freshness is three days. *)
Definition aged : Resource :=
  resourceOf 5%positive 172800 60 259200 false false true.

(** A cache that cannot be reached. *)
Definition unreachable : Engine := {|
  NewCacheRequest := sampleNewCacheRequest;
  NewResource := @NewResource _ engine;
  RemovePrivateHeaders := @RemovePrivateHeaders _ engine;
  res := @res _ engine;
  CacheState := unit;
  Retrieve := fun c key => (Err (ErrOther "cache unreachable"), c);
  Store := fun c resource keys => (Some (ErrOther "cache unreachable"), c);
  Freshen := fun c resource key => (Some (ErrOther "cache unreachable"), c)
|}.

Definition unreachableWorld : @World _ unreachable :=
  @Build_World _ unreachable sampleHeap tt [].

End MoreSample.

Module HandlerSample.
Import Auth Handlers Sample AuthSample.

(** One request, at pointer 10, which is also the context's. *)
Definition processWith (line : string) : Process :=
  {| state := stateWith line;
     requests := {[ 10%positive := request ]} |}.

Definition context : ProxyCtx :=
  {| Req := 10%positive; Resp := None; User := ""; Password := "" |}.

(** Approves [user] with password [pass]. *)
Definition approves (user passwd : string) : bool :=
  String.eqb user "user" && String.eqb passwd "pass".

End HandlerSample.

(** * Properties *)

(** ** 64-bit arithmetic *)

Module GoFacts.

Lemma wrap64_int64 (z : Z) : int64 z -> wrap64 z = z.
Proof.
  unfold int64, min_int64, max_int64, wrap64. intros Hz.
  rewrite Z.mod_small by lia. lia.
Qed.

Lemma sub64_exact (a b : Z) : int64 (a - b) -> sub64 a b = a - b.
Proof. apply wrap64_int64. Qed.

(** [d * -1] is the magnitude of a non-positive duration whenever that
    magnitude is itself an int64. *)
Lemma mul64_negate (f : Z) : min_int64 < f <= 0 -> mul64 f (-1) = - f.
Proof.
  intros Hf. unfold mul64. replace (f * -1) with (- f) by lia.
  apply wrap64_int64. unfold int64, min_int64, max_int64 in *. lia.
Qed.

End GoFacts.

(** ** Freshness Evaluator and Validation Decider *)

Module DecideFacts.
Import Cacher GoFacts.

Section Facts.
Context `{KeyModel}.

Lemma Has_empty (name : string) : Has (∅ : CacheControl) name = false.
Proof. unfold Has. by rewrite lookup_empty. Qed.

Lemma Duration_Has (cc : CacheControl) (name : string) (d : Z) :
  Duration cc name = (d, None) -> Has cc name = true.
Proof.
  unfold Duration, Has. destruct (cc !! name) as [[|v vs]|]; try done.
Qed.

(** What [freshness] answers for a resource that is not marked stale
    and whose age is known, given the max-age in force after the
    request's override. *)
Lemma freshness_not_stale (shared : bool) (resource : Resource)
    (request : cacheRequest) (origin age : Z) :
  MaxAge resource shared = Ok origin ->
  Age resource = Ok age ->
  IsStale resource = false ->
  Has (crCacheControl request) "max-age" = false ->
  freshness shared resource request =
    Ok (sub64 (Z.max origin (HeuristicFreshness resource)) age).
Proof.
  intros Hmax Hage Hstale Hhas. unfold freshness.
  rewrite Hmax, Hhas, Hage, Hstale. f_equal. f_equal.
  destruct (Z.gtb_spec (HeuristicFreshness resource) origin); lia.
Qed.

(** C3: whenever [resource.MustValidate(shared)] is true,
    [needsValidation] answers true, for every cache request: neither
    the computed freshness nor a client [max-stale] or [min-fresh]
    directive is consulted. *)
Theorem needsValidation_MustValidate (shared : bool)
    (resource : Resource) (request : cacheRequest) :
  MustValidate resource shared = true ->
  needsValidation shared resource request = true.
Proof. intros Hmust. unfold needsValidation. by rewrite Hmust. Qed.

(** C4: for a resource that need not be validated unconditionally,
    whose freshness computes without error to [f <= 0], and a request
    without [min-fresh]: [needsValidation] is false when [max-stale]
    is carried without a value; false when it is carried with a value
    and the duration the code reads from it is at least [-f], the
    boundary [maxStale = -f] included; and true in every other case.
    The duration read is the one [Duration("max-stale")] yields, its
    error discarded as in the source; [-f] is what [freshness * -1]
    computes for every [f] above the least int64. *)
Theorem needsValidation_max_stale (shared : bool) (resource : Resource)
    (request : cacheRequest) (f : Z) :
  let cc := crCacheControl request in
  let maxStale := fst (Duration cc "max-stale") in
  MustValidate resource shared = false ->
  freshness shared resource request = Ok f ->
  min_int64 < f <= 0 ->
  Has cc "min-fresh" = false ->
  (cc !! "max-stale" = Some [] ->
     needsValidation shared resource request = false)
  /\ (forall v vs, cc !! "max-stale" = Some (v :: vs) ->
        maxStale >= - f ->
        needsValidation shared resource request = false)
  /\ (cc !! "max-stale" = None
      \/ (exists v vs, cc !! "max-stale" = Some (v :: vs))
         /\ maxStale < - f ->
      needsValidation shared resource request = true).
Proof.
  intros cc maxStale Hmust Hfresh Hf Hmin.
  assert (Hneg : mul64 f (-1) = - f) by (by apply mul64_negate).
  assert (Hle : (f <=? 0) = true) by (apply Z.leb_le; lia).
  unfold needsValidation. rewrite Hmust, Hfresh.
  fold cc. rewrite Hmin, Hle. cbn [andb].
  unfold Has, valueCount. fold maxStale. rewrite Hneg.
  repeat split.
  - intros Hcc. by rewrite Hcc.
  - intros v vs Hcc Hge. rewrite Hcc. cbn.
    destruct (Z.geb_spec maxStale (- f)); [done | lia].
  - intros [Hcc | [(v & vs & Hcc) Hlt]]; rewrite Hcc; [done |].
    cbn. destruct (Z.geb_spec maxStale (- f)); [lia | done].
Qed.

(** C5, as the code has it: for a resource that is not marked stale
    and whose age is known, and a request whose [max-age] parses to
    [d] below [resource.MaxAge(shared)], [freshness] puts [d] in place
    of the origin's max-age and then lets a larger heuristic freshness
    replace it: the result is [max d h - age] in 64-bit arithmetic,
    which is [d - age] exactly when the heuristic freshness [h] does
    not exceed [d]. *)
Theorem freshness_request_max_age (shared : bool) (resource : Resource)
    (request : cacheRequest) (origin d age : Z) :
  IsStale resource = false ->
  Duration (crCacheControl request) "max-age" = (d, None) ->
  MaxAge resource shared = Ok origin ->
  d < origin ->
  Age resource = Ok age ->
  freshness shared resource request =
    Ok (sub64 (Z.max d (HeuristicFreshness resource)) age)
  /\ (HeuristicFreshness resource <= d ->
      freshness shared resource request = Ok (sub64 d age)).
Proof.
  intros Hstale Hdur Hmax Hlt Hage.
  assert (Hfresh : freshness shared resource request =
            Ok (sub64 (Z.max d (HeuristicFreshness resource)) age)).
  { unfold freshness.
    rewrite Hmax, (Duration_Has _ _ _ Hdur), Hdur, Hage, Hstale.
    destruct (Z.ltb_spec d origin); [| lia]. f_equal. f_equal.
    destruct (Z.gtb_spec (HeuristicFreshness resource) d); lia. }
  split; [done |]. intros Hh. rewrite Hfresh. f_equal. f_equal. lia.
Qed.

(** C8, as the code has it: for a resource that need not be validated
    unconditionally and is not marked stale, with origin max-age [M]
    and age [A] where [0 <= A < M], and a request without any
    [Cache-Control] directive, [needsValidation] answers false.  [M]
    and the heuristic freshness are int64 values. *)
Theorem needsValidation_fresh (shared : bool) (resource : Resource)
    (request : cacheRequest) (M A : Z) :
  MustValidate resource shared = false ->
  IsStale resource = false ->
  MaxAge resource shared = Ok M ->
  Age resource = Ok A ->
  0 <= A < M ->
  M <= max_int64 ->
  HeuristicFreshness resource <= max_int64 ->
  crCacheControl request = ∅ ->
  needsValidation shared resource request = false.
Proof.
  intros Hmust Hstale Hmax Hage HA HM Hh Hcc.
  unfold needsValidation.
  rewrite Hmust, (freshness_not_stale _ _ _ M A) by
    (try done; rewrite Hcc; apply Has_empty).
  rewrite Hcc, !Has_empty, andb_false_r.
  rewrite sub64_exact by (unfold int64, min_int64, max_int64 in *; lia).
  apply Z.leb_gt. lia.
Qed.

End Facts.

End DecideFacts.

(** ** Lookup, Response Reconstructor and Orchestrator *)

Module EngineFacts.
Import Cacher.

Section Facts.
Context `{Runtime} `{KeyModel} `{!Engine}.

Lemma touchesOnly_refl (l : ref) (w : World) : touchesOnly l w w.
Proof. by repeat split. Qed.

Lemma touchesOnly_trans (l : ref) (w1 w2 w3 : World) :
  touchesOnly l w1 w2 -> touchesOnly l w2 w3 -> touchesOnly l w1 w3.
Proof.
  intros (Hc1 & Hl1 & Hh1 & Hs1) (Hc2 & Hl2 & Hh2 & Hs2). repeat split.
  - by rewrite Hc2.
  - by rewrite Hl2.
  - intros l' Hne. by rewrite Hh2, Hh1.
  - auto.
Qed.

Lemma writesOnly_ret {A : Type} (l : ref) (a : A) :
  writesOnly l (mret a : M A).
Proof. intros w. apply touchesOnly_refl. Qed.

Lemma writesOnly_updateHeader (l : ref) (f : HeaderMap -> HeaderMap) :
  writesOnly l (updateHeader l f).
Proof.
  intros w. repeat split; cbn.
  - intros l' Hne. by apply lookup_alter_ne.
  - rewrite lookup_alter_eq. by apply fmap_is_Some.
Qed.

Lemma writesOnly_forEach {A : Type} (l : ref) (xs : list A)
    (body : A -> M unit) :
  (forall x, writesOnly l (body x)) -> writesOnly l (forEach xs body).
Proof.
  intros Hbody. induction xs as [| x xs IH]; intros w; cbn.
  - apply touchesOnly_refl.
  - unfold mbind, M_bind. specialize (Hbody x w).
    destruct (body x w) as [[] w1]. cbn in Hbody.
    eapply touchesOnly_trans; [exact Hbody | apply IH].
Qed.

Lemma le_foldr_max (l : ref) (ls : list positive) :
  l ∈ ls -> (l <= foldr Pos.max 1 ls)%positive.
Proof.
  induction ls as [| l0 ls IH]; cbn.
  - by rewrite elem_of_nil.
  - rewrite elem_of_cons. intros [-> | Hin]; [lia |].
    specialize (IH Hin). lia.
Qed.

Lemma freshRef_fresh (h : Heap) : h !! freshRef h = None.
Proof.
  destruct (h !! freshRef h) as [m |] eqn:Hm; [| done].
  assert (Hin : freshRef h ∈ fst <$> map_to_list h).
  { apply list_elem_of_fmap. exists (freshRef h, m).
    split; [done | by apply elem_of_map_to_list]. }
  apply le_foldr_max in Hin. unfold freshRef in Hin at 1. lia.
Qed.

Lemma make_Header_spec (w : World) :
  heap w !! fst (make_Header w) = None
  /\ heap (snd (make_Header w)) !! fst (make_Header w) = Some ∅
  /\ cache (snd (make_Header w)) = cache w
  /\ calls (snd (make_Header w)) = calls w
  /\ forall l', l' <> fst (make_Header w) ->
       heap (snd (make_Header w)) !! l' = heap w !! l'.
Proof.
  cbn. repeat split.
  - apply freshRef_fresh.
  - apply lookup_insert_eq.
  - intros l' Hne. by apply lookup_insert_ne.
Qed.

Lemma updateHeader_keepsKey (l : ref) (f : HeaderMap -> HeaderMap)
    (key : string) (w : World) :
  (forall m, f m !! key = m !! key) ->
  keepsKey l key w (snd (updateHeader l f w)).
Proof.
  intros Hf. unfold keepsKey. cbn. rewrite lookup_alter_eq.
  destruct (heap w !! l) as [m |]; cbn; [apply Hf | done].
Qed.

Lemma mapAdd_lookup (m : HeaderMap) (key value k : string) :
  default [] (mapAdd m key value !! k)
  = if decide (CanonicalMIMEHeaderKey key = k)
    then (default [] (m !! k) ++ [value])%list
    else default [] (m !! k).
Proof.
  unfold mapAdd. rewrite lookup_insert.
  case_decide as Hk; [by subst k | done].
Qed.

Lemma mapAdd_other (m : HeaderMap) (k v key : string) :
  key <> CanonicalMIMEHeaderKey k -> mapAdd m k v !! key = m !! key.
Proof. intros Hne. unfold mapAdd. by apply lookup_insert_ne. Qed.

Lemma mapSet_other (m : HeaderMap) (k v key : string) :
  key <> CanonicalMIMEHeaderKey k -> mapSet m k v !! key = m !! key.
Proof. intros Hne. unfold mapSet. by apply lookup_insert_ne. Qed.

(** The values under [k] after all of [values] were added under [key]. *)
Lemma addValues_lookup (key : string) (values : list string)
    (m : HeaderMap) (k : string) :
  default [] (addValues key values m !! k)
  = if decide (CanonicalMIMEHeaderKey key = k)
    then (default [] (m !! k) ++ values)%list
    else default [] (m !! k).
Proof.
  unfold addValues. revert m.
  induction values as [| v values IH]; intros m; cbn.
  - case_decide; [by rewrite app_nil_r | done].
  - rewrite IH, mapAdd_lookup.
    case_decide; [by rewrite <- app_assoc | done].
Qed.

(** Copying entries whose names are canonical and pairwise different
    appends, under each name, the values of its entry. *)
Lemma copyHeaders_lookup (entries : list (string * list string))
    (m : HeaderMap) (k : string) :
  (forall key values,
     (key, values) ∈ entries -> CanonicalMIMEHeaderKey key = key) ->
  NoDup (entries.*1) ->
  default [] (copyHeaders entries m !! k)
  = (default [] (m !! k)
     ++ default [] ((list_to_map entries : HeaderMap) !! k))%list.
Proof.
  unfold copyHeaders. revert m.
  induction entries as [| [key values] entries IH]; intros m Hcanon Hnodup.
  - cbn. by rewrite lookup_empty, app_nil_r.
  - cbn [foldl fst snd]. rewrite fmap_cons in Hnodup.
    apply NoDup_cons in Hnodup as [Hfresh Hnodup].
    rewrite IH by (try done; intros ? ? ?; eapply Hcanon; by right).
    rewrite addValues_lookup, (Hcanon key values) by left.
    cbn [fst list_to_map foldr]. rewrite lookup_insert.
    case_decide as Hk; cbn.
    + subst k. rewrite not_elem_of_list_to_map_1 by done.
      cbn. by rewrite app_nil_r.
    + done.
Qed.

Lemma forEach_values_heap (l : ref) (key : string) (values : list string)
    (w : World) :
  heap (snd (forEach values (fun value => Header_Add l key value) w)) !! l
  = addValues key values <$> heap w !! l.
Proof.
  unfold addValues. revert w.
  induction values as [| v values IH]; intros w; cbn.
  - by destruct (heap w !! l).
  - unfold mbind, M_bind. cbn. rewrite IH. cbn.
    rewrite lookup_alter_eq. by destruct (heap w !! l).
Qed.

Lemma forEach_entries_heap (l : ref) (entries : list (string * list string))
    (w : World) :
  heap (snd (forEach entries (fun entry =>
               forEach (snd entry) (fun value =>
                 Header_Add l (fst entry) value)) w)) !! l
  = copyHeaders entries <$> heap w !! l.
Proof.
  unfold copyHeaders. revert w.
  induction entries as [| entry entries IH]; intros w; cbn.
  - by destruct (heap w !! l).
  - unfold mbind, M_bind.
    pose proof (forEach_values_heap l (fst entry) (snd entry) w) as Hv.
    destruct (forEach (snd entry) _ w) as [[] w1]. cbn in Hv.
    rewrite IH, Hv. by destruct (heap w !! l).
Qed.

(** A step that adds one value under [k], or does nothing. *)
Lemma optional_Add (c : bool) (l : ref) (k v : string) (w : World) :
  let w' := snd ((if c then Header_Add l k v else mret tt) w) in
  touchesOnly l w w'
  /\ forall key, key <> CanonicalMIMEHeaderKey k -> keepsKey l key w w'.
Proof.
  destruct c; cbn zeta.
  - split; [apply writesOnly_updateHeader |].
    intros key Hne. apply updateHeader_keepsKey.
    intros m. by apply mapAdd_other.
  - split; [apply touchesOnly_refl | done].
Qed.

(** On success the headers handed back are the map [make] allocated,
    nothing but that map was written, and under every name but
    [Warning], [Age] and [Via] it holds what the copying loop put there. *)
Lemma newResponseParameters_writes (shared : bool)
    (request : cacheRequest) (resource : Resource) (w w' : World)
    (statusCode contentLength : Z) (headers : ref) (body : ReadCloser) :
  newResponseParameters shared request resource w
    = (Ok (statusCode, contentLength, headers, body), w') ->
  let w0 := snd (make_Header w) in
  headers = fst (make_Header w)
  /\ touchesOnly headers w0 w'
  /\ forall key,
       key <> CanonicalMIMEHeaderKey "Warning" ->
       key <> CanonicalMIMEHeaderKey "Age" ->
       key <> CanonicalMIMEHeaderKey "Via" ->
       default ∅ (heap w' !! headers) !! key
       = copyHeaders
           (map_to_list (default ∅ (heap w0 !! Header resource))) ∅ !! key.
Proof.
  unfold newResponseParameters.
  destruct (Age resource) as [age |]; [| discriminate].
  unfold mbind, M_bind. cbn.
  set (l := freshRef (heap w)).
  set (w0 := withHeap (insert l ∅) w).
  set (entries := map_to_list (default ∅ (heap w0 !! Header resource))).
  change (<[l:=∅]> (heap w)) with (heap w0).
  fold entries.
  pose proof (forEach_entries_heap l entries w0) as Hcopied.
  pose proof (writesOnly_forEach l entries
                (fun entry => forEach (snd entry) (fun header =>
                   Header_Add l (fst entry) header))
                (fun entry => writesOnly_forEach l _ _
                   (fun header => writesOnly_updateHeader l _)) w0) as Hcopy.
  match goal with
  | |- context [forEach entries ?b w0] =>
      destruct (forEach entries b w0) as [[] w1]
  end.
  cbn in Hcopied, Hcopy.
  match goal with
  | |- context [(if ?c then _ else _) w1] =>
      pose proof (optional_Add c l "Warning" warning113 w1) as [Hwarn Hwarn']
  end.
  cbn zeta in Hwarn, Hwarn'.
  match goal with
  | |- context [(if ?c then ?a else ?b) w1] =>
      destruct ((if c then a else b) w1) as [[] w2]
  end.
  cbn in Hwarn, Hwarn'.
  match goal with
  | |- context [match freshness ?s ?r ?q with _ => _ end w2] =>
      pose proof (optional_Add
                    match freshness s r q with
                    | Ok f => f <=? 0
                    | Err _ => true
                    end l "Warning" warning110 w2) as [Hstale Hstale'];
      replace ((if match freshness s r q with
                   | Ok f => f <=? 0
                   | Err _ => true
                   end
                then Header_Add l "Warning" warning110 else mret tt) w2)
        with (match freshness s r q with
              | Ok f => if f <=? 0
                        then Header_Add l "Warning" warning110
                        else mret tt
              | Err _ => Header_Add l "Warning" warning110
              end w2) in Hstale, Hstale'
        by (by destruct (freshness s r q))
  end.
  cbn zeta in Hstale, Hstale'.
  match goal with
  | |- context [let '(_, _) := ?m w2 in _] =>
      destruct (m w2) as [[] w3]
  end.
  cbn in Hstale, Hstale'. intros [= <- <- <- <- <-].
  split; [done |]. split.
  - eapply touchesOnly_trans; [exact Hcopy |].
    eapply touchesOnly_trans; [exact Hwarn |].
    eapply touchesOnly_trans; [exact Hstale |].
    eapply touchesOnly_trans; apply writesOnly_updateHeader.
  - intros key Hwarning Hage Hvia. cbn.
    rewrite !lookup_alter_eq.
    transitivity (default ∅ (heap w3 !! l) !! key).
    { destruct (heap w3 !! l) as [m |]; cbn; [| done].
      by rewrite !mapSet_other. }
    rewrite (Hstale' key Hwarning), (Hwarn' key Hwarning), Hcopied.
    subst w0. cbn. by rewrite lookup_insert_eq.
Qed.

(** C9: whenever [newResponseParameters] succeeds, on a resource whose
    header map is a live map, the header map it hands back is a map
    allocated by this call: it did not exist before, it is not the
    resource's own map, and the call leaves the resource's map, and
    every other map that existed, as it was.  So whatever is later
    done to the returned headers, [RemovePrivateHeaders] included,
    the resource's headers stay what they were.  The new map is a copy:
    when the resource's header names are canonical, it holds under
    every name but [Warning], [Age] and [Via] the values the resource
    holds.  The call makes no call on the cache. *)
Theorem newResponseParameters_fresh_headers (shared : bool)
    (request : cacheRequest) (resource : Resource) (w w' : World)
    (statusCode contentLength : Z) (headers : ref) (body : ReadCloser) :
  let source : HeaderMap := default ∅ (heap w !! Header resource) in
  let copy : HeaderMap := default ∅ (heap w' !! headers) in
  is_Some (heap w !! Header resource) ->
  newResponseParameters shared request resource w
    = (Ok (statusCode, contentLength, headers, body), w') ->
  heap w !! headers = None
  /\ is_Some (heap w' !! headers)
  /\ headers <> Header resource
  /\ heap w' !! Header resource = heap w !! Header resource
  /\ (forall l, is_Some (heap w !! l) -> heap w' !! l = heap w !! l)
  /\ (forall f : HeaderMap -> HeaderMap,
        alter f headers (heap w') !! Header resource
        = heap w !! Header resource)
  /\ ((forall name, is_Some (source !! name) ->
         CanonicalMIMEHeaderKey name = name) ->
      forall key,
        key <> CanonicalMIMEHeaderKey "Warning" ->
        key <> CanonicalMIMEHeaderKey "Age" ->
        key <> CanonicalMIMEHeaderKey "Via" ->
        default [] (copy !! key) = default [] (source !! key))
  /\ cache w' = cache w
  /\ calls w' = calls w.
Proof.
  intros source copy Hlive Hrun.
  apply newResponseParameters_writes in Hrun
    as (-> & (Hc & Hl & Hh & Hs) & Hcopied).
  pose proof (make_Header_spec w) as (Hfresh & Hnew & Hc0 & Hl0 & Hh0).
  set (l := fst (make_Header w)) in *.
  assert (Hne : l <> Header resource).
  { intros Heq. rewrite <- Heq, Hfresh in Hlive. by destruct Hlive. }
  assert (Hold : forall l', is_Some (heap w !! l') ->
            heap w' !! l' = heap w !! l').
  { intros l' Hl'. assert (l' <> l).
    { intros ->. rewrite Hfresh in Hl'. by destruct Hl'. }
    by rewrite Hh, Hh0. }
  split_and!.
  - exact Hfresh.
  - apply Hs. by rewrite Hnew.
  - exact Hne.
  - by apply Hold.
  - exact Hold.
  - intros f. rewrite lookup_alter_ne by done. by apply Hold.
  - intros Hcanon key Hwarning Hage Hvia. unfold copy.
    rewrite (Hcopied key Hwarning Hage Hvia), Hh0 by done. fold source.
    rewrite copyHeaders_lookup.
    + by rewrite lookup_empty, list_to_map_to_list.
    + intros name values Hin. apply Hcanon.
      apply elem_of_map_to_list in Hin. by rewrite Hin.
    + apply NoDup_fst_map_to_list.
  - by rewrite Hc.
  - by rewrite Hl.
Qed.

(** The guard [StatusCode != 200 || StatusCode != 304] holds of every
    status code. *)
Lemma status_guard (statusCode : Z) :
  negb (statusCode =? StatusOK) || negb (statusCode =? StatusNotModified)
  = true.
Proof.
  destruct (Z.eqb_spec statusCode StatusOK) as [-> |]; reflexivity.
Qed.

(** C2: [TryCacheResponse] hands back its response argument and leaves
    the world as it found it, whatever the status code: no header map
    is written and no [Retrieve], [Store] or [Freshen] call is made,
    the first guard being true of every status code. *)
Theorem TryCacheResponse_returns_its_argument (shared : bool)
    (response : Response) (w : World) :
  TryCacheResponse shared response w = (response, w)
  /\ calls (snd (TryCacheResponse shared response w)) = calls w.
Proof.
  unfold TryCacheResponse. by rewrite status_guard.
Qed.

(** What [goproxy.NewResponse] builds. *)
Lemma goproxy_NewResponse_spec (request : Request)
    (contentType body : string) (status : Z) (w : World) :
  let response := fst (goproxy_NewResponse request contentType status body w) in
  let w' := snd (goproxy_NewResponse request contentType status body w) in
  StatusCode response = status
  /\ Body response = BufferReadCloser body
  /\ RespRequest response = request
  /\ heap w' !! RespHeader response
     = Some {[ CanonicalMIMEHeaderKey "Content-Type" := [contentType] ]}
  /\ calls w' = calls w.
Proof.
  unfold goproxy_NewResponse, mbind, M_bind, make_Header, Header_Add,
    updateHeader, mret, M_ret. cbn.
  split_and!; try done.
  rewrite lookup_alter_eq, lookup_insert_eq. cbn.
  unfold mapAdd. by rewrite lookup_empty, insert_empty.
Qed.

(** C6: for a request whose cache request carries [only-if-cached]
    and is cacheable, so that the cache is looked up: whenever the
    lookup misses with [ErrNotFoundInCache], or finds a resource that
    needs validation, [TryServeCachedResponse] answers with a response
    of its own making, status 504, content type [text/plain], body
    [key not in cache], and not with the nil response that has the
    request forwarded to the origin. *)
Theorem TryServeCachedResponse_only_if_cached (shared : bool)
    (request : Request) (w : World) (cacheRequest : cacheRequest) :
  NewCacheRequest request (default ∅ (heap w !! ReqHeader request))
    = Ok cacheRequest ->
  IsCacheable cacheRequest = true ->
  Has (crCacheControl cacheRequest) "only-if-cached" = true ->
  fst (lookup cacheRequest w) = Err ErrNotFoundInCache
  \/ (exists resource,
        fst (lookup cacheRequest w) = Ok resource
        /\ needsValidation shared resource cacheRequest = true) ->
  exists response w',
    TryServeCachedResponse shared request w
      = ((request, Some response), w')
    /\ StatusCode response = StatusGatewayTimeout
    /\ Body response = BufferReadCloser "key not in cache"
    /\ RespRequest response = request
    /\ heap w' !! RespHeader response
       = Some {[ CanonicalMIMEHeaderKey "Content-Type" := [ContentTypeText] ]}.
Proof.
  intros Hnew Hcacheable Honly Hfound.
  unfold TryServeCachedResponse, mbind, M_bind, readHeader.
  rewrite Hnew, Hcacheable. cbn [negb].
  destruct (lookup cacheRequest w) as [found w1]. cbn [fst] in Hfound.
  pose proof (goproxy_NewResponse_spec request ContentTypeText
                "key not in cache" StatusGatewayTimeout w1)
    as (Hstatus & Hbody & Hreq & Hheader & _).
  destruct Hfound as [-> | (resource & -> & Hneeds)].
  - rewrite bool_decide_true by done. cbn [negb]. rewrite Honly.
    destruct (goproxy_NewResponse request ContentTypeText
                StatusGatewayTimeout "key not in cache" w1)
      as [response w2].
    by exists response, w2.
  - rewrite Hneeds, Honly.
    destruct (goproxy_NewResponse request ContentTypeText
                StatusGatewayTimeout "key not in cache" w1)
      as [response w2].
    by exists response, w2.
Qed.

(** C7: for a [HEAD] cache request whose primary key the cache does
    not hold, [lookup] goes on to retrieve under the key of the [GET]
    variant.  It hands the resource found there back only when that
    resource has explicit expiration (and does so whenever the request
    is cacheable as well); when the resource lacks explicit expiration
    the answer is the miss [ErrNotFoundInCache]; and when the second
    retrieval fails, with a miss in particular, that failure is the
    answer. *)
Theorem lookup_HEAD_falls_back_to_GET (cacheRequest : cacheRequest)
    (w : World) (c1 : CacheState) :
  let primary := Key_String (crKey cacheRequest) in
  let getKey := Key_String (Key_ForMethod (crKey cacheRequest) "GET") in
  Method (crRequest cacheRequest) = "HEAD" ->
  Retrieve (cache w) primary = (Err ErrNotFoundInCache, c1) ->
  calls (snd (lookup cacheRequest w))
    = (calls w ++ [CallRetrieve primary; CallRetrieve getKey])%list
  /\ cache (snd (lookup cacheRequest w)) = snd (Retrieve c1 getKey)
  /\ (forall resource,
        fst (lookup cacheRequest w) = Ok resource ->
        fst (Retrieve c1 getKey) = Ok resource
        /\ HasExplicitExpiration resource = true)
  /\ (forall resource,
        fst (Retrieve c1 getKey) = Ok resource ->
        HasExplicitExpiration resource = true ->
        IsCacheable cacheRequest = true ->
        fst (lookup cacheRequest w) = Ok resource)
  /\ (forall resource,
        fst (Retrieve c1 getKey) = Ok resource ->
        HasExplicitExpiration resource = false ->
        fst (lookup cacheRequest w) = Err ErrNotFoundInCache)
  /\ (forall err,
        fst (Retrieve c1 getKey) = Err err ->
        fst (lookup cacheRequest w) = Err err).
Proof.
  intros primary getKey Hhead Hmiss.
  unfold lookup, mbind, M_bind, cache_Retrieve.
  fold primary getKey. rewrite Hmiss, Hhead.
  rewrite bool_decide_true by done. cbn.
  destruct (Retrieve c1 getKey) as [[resource | err] c2]; cbn.
  - destruct (HasExplicitExpiration resource) eqn:Hexp;
      destruct (IsCacheable cacheRequest) eqn:Hcacheable; cbn;
      rewrite <- app_assoc; repeat split; try congruence;
      intros r [= <-]; congruence.
  - rewrite <- app_assoc. repeat split; try congruence; intros r [=].
Qed.

End Facts.

End EngineFacts.

(** ** The proxy-auth helper *)

Module AuthFacts.
Import Auth.

Section Facts.
Context `{Runtime}.

(** Whatever [auth] answers, the state it leaves is the one right
    after the deletion, with at most one credential check logged
    after it. *)
Lemma auth_state (req : Request) (f : AuthWithAddrFunc) (st : State) :
  let deleted := Header_Del req proxyAuthorizationHeader st in
  heap (snd (auth req f st)) = heap deleted
  /\ (trace (snd (auth req f st)) = trace deleted
      \/ exists user passwd,
           trace (snd (auth req f st))
           = (trace deleted
              ++ [CredentialCheck (RemoteAddr req) user passwd])%list).
Proof.
  intros deleted. unfold auth. fold deleted.
  destruct (SplitN2 _ space) as [| scheme [| credentials [| ? ?]]];
    try (split; [reflexivity | by left]).
  destruct (negb (String.eqb scheme "Basic"));
    try (split; [reflexivity | by left]).
  destruct (DecodeString credentials) as [userpassraw |];
    try (split; [reflexivity | by left]).
  destruct (SplitN2 userpassraw colon) as [| user [| passwd [| ? ?]]];
    try (split; [reflexivity | by left]).
  split; [reflexivity |]. right. by exists user, passwd.
Qed.

(** C10: whatever the request and the authenticator, and whatever
    [auth] answers, the request's header map holds no
    [Proxy-Authorization] entry once [auth] is done; every other
    header and every other map are as before; and the deletion comes
    first in what [auth] does, ahead of the one credential check it
    may make. *)
Theorem auth_deletes_Proxy_Authorization (req : Request)
    (f : AuthWithAddrFunc) (st : State) :
  let st' := snd (auth req f st) in
  let headersOf (s : State) : HeaderMap :=
    default ∅ (heap s !! ReqHeader req) in
  headersOf st' !! CanonicalMIMEHeaderKey "Proxy-Authorization" = None
  /\ Header_Get req "Proxy-Authorization" st' = ""
  /\ (forall key, key <> CanonicalMIMEHeaderKey "Proxy-Authorization" ->
        headersOf st' !! key = headersOf st !! key)
  /\ (forall l, l <> ReqHeader req -> heap st' !! l = heap st !! l)
  /\ exists checks,
       trace st'
       = (trace st
          ++ HeaderDel (ReqHeader req) "Proxy-Authorization" :: checks)%list
       /\ (checks = []
           \/ exists user passwd,
                checks = [CredentialCheck (RemoteAddr req) user passwd]).
Proof.
  intros st' headersOf.
  destruct (auth_state req f st) as [Hheap Htrace].
  fold st' in Hheap, Htrace.
  assert (Hgone : headersOf st'
                    !! CanonicalMIMEHeaderKey "Proxy-Authorization" = None).
  { unfold headersOf. rewrite Hheap. cbn. rewrite lookup_alter_eq.
    destruct (heap st !! ReqHeader req) as [m |]; cbn.
    - unfold mapDel, proxyAuthorizationHeader. apply lookup_delete_eq.
    - apply lookup_empty. }
  split_and!.
  - exact Hgone.
  - unfold Header_Get, mapGet. fold (headersOf st'). by rewrite Hgone.
  - intros key Hkey. unfold headersOf. rewrite Hheap. cbn.
    rewrite lookup_alter_eq.
    destruct (heap st !! ReqHeader req) as [m |]; cbn; [| done].
    unfold mapDel, proxyAuthorizationHeader. by apply lookup_delete_ne.
  - intros l Hl. rewrite Hheap. cbn. by apply lookup_alter_ne.
  - destruct Htrace as [Ht | (user & passwd & Ht)]; rewrite Ht; cbn.
    + exists []. split; [done | by left].
    + exists [CredentialCheck (RemoteAddr req) user passwd].
      split; [by rewrite <- app_assoc | right; eauto].
Qed.

End Facts.

End AuthFacts.

(** ** The theorems at work on the scenarios *)

Module Scenarios.
Import Cacher Sample DecideFacts EngineFacts.

(** A resource ten seconds into a sixty-second lifetime that must be
    revalidated, asked for with an unbounded [max-stale]. *)
Lemma needsValidation_MustValidate_witness :
  needsValidation true (resourceOf 3 10 60 0 false true true)
    (requestWith {[ "max-stale" := [] ]} "GET") = true.
Proof. apply needsValidation_MustValidate. reflexivity. Defined.

(** Forty seconds past its lifetime and [max-stale=40]: the boundary. *)
Lemma needsValidation_max_stale_witness :
  needsValidation true (resourceOf 3 100 60 0 false false true)
    (requestWith {[ "max-stale" := ["40"] ]} "GET") = false.
Proof.
  pose proof (needsValidation_max_stale true
                (resourceOf 3 100 60 0 false false true)
                (requestWith {[ "max-stale" := ["40"] ]} "GET")
                (seconds (-40))) as Hthm.
  cbv zeta in Hthm.
  destruct Hthm as (_ & Hvalued & _).
  - reflexivity.
  - vm_compute. reflexivity.
  - unfold min_int64, seconds, Second. lia.
  - vm_compute. reflexivity.
  - apply (Hvalued "40" []).
    + vm_compute. reflexivity.
    + vm_compute. discriminate.
Defined.

(** C5 fails as stated: origin max-age 60 s, request max-age 5 s, age
    10 s, heuristic freshness 100 s.  The freshness is 90 s, above
    5 s - 10 s. *)
Lemma freshness_exceeds_request_max_age :
  let resource := resourceOf 3 10 60 100 false false true in
  let request := requestWith {[ "max-age" := ["5"] ]} "GET" in
  IsStale resource = false
  /\ Duration (crCacheControl request) "max-age" = (seconds 5, None)
  /\ MaxAge resource true = Ok (seconds 60)
  /\ seconds 5 < seconds 60
  /\ Age resource = Ok (seconds 10)
  /\ freshness true resource request = Ok (seconds 90)
  /\ ~ seconds 90 <= seconds 5 - seconds 10.
Proof.
  cbv zeta. split_and!; try (vm_compute; reflexivity).
  unfold seconds, Second. lia.
Qed.

Lemma freshness_request_max_age_witness :
  freshness true (resourceOf 3 10 60 0 false false true)
    (requestWith {[ "max-age" := ["5"] ]} "GET")
  = Ok (sub64 (seconds 5) (seconds 10)).
Proof.
  apply (freshness_request_max_age true
           (resourceOf 3 10 60 0 false false true)
           (requestWith {[ "max-age" := ["5"] ]} "GET")
           (seconds 60) (seconds 5) (seconds 10)).
  - reflexivity.
  - vm_compute. reflexivity.
  - reflexivity.
  - unfold seconds, Second. lia.
  - reflexivity.
  - vm_compute. discriminate.
Defined.

(** C8 fails as stated: max-age 60 s, age 10 s, no directive, and a
    resource that must be revalidated. *)
Lemma needsValidation_fresh_but_MustValidate :
  let resource := resourceOf 3 10 60 0 false true true in
  let request := requestWith ∅ "GET" in
  MaxAge resource true = Ok (seconds 60)
  /\ Age resource = Ok (seconds 10)
  /\ seconds 10 < seconds 60
  /\ crCacheControl request = ∅
  /\ needsValidation true resource request = true.
Proof.
  cbv zeta. split_and!; reflexivity.
Qed.

Lemma needsValidation_fresh_witness :
  needsValidation true (resourceOf 3 10 60 0 false false true)
    (requestWith ∅ "GET") = false.
Proof.
  apply (needsValidation_fresh true
           (resourceOf 3 10 60 0 false false true)
           (requestWith ∅ "GET") (seconds 60) (seconds 10));
    try reflexivity.
  - unfold seconds, Second. lia.
  - vm_compute. discriminate.
  - vm_compute. discriminate.
Defined.

(** The same age and lifetime on a resource marked stale: freshness is
    forced to zero and validation is needed. *)
Example needsValidation_fresh_but_stale :
  needsValidation true (resourceOf 3 10 60 0 true false true)
    (requestWith ∅ "GET") = true.
Proof. reflexivity. Qed.

(** A [max-stale] value that does not parse is read as the zero
    duration, which a freshness of zero meets. *)
Example needsValidation_max_stale_unparseable :
  Duration {[ "max-stale" := ["abc"] ]} "max-stale"
    = (0, Some (MalformedDirective "max-stale"))
  /\ needsValidation true (resourceOf 3 10 60 0 true false true)
       (requestWith {[ "max-stale" := ["abc"] ]} "GET") = false
  /\ needsValidation true (resourceOf 3 100 60 0 false false true)
       (requestWith {[ "max-stale" := ["abc"] ]} "GET") = true.
Proof. split_and!; vm_compute; reflexivity. Qed.

(** [GET] with [Cache-Control: only-if-cached] against an empty cache. *)
Lemma TryServeCachedResponse_only_if_cached_witness :
  exists response w',
    TryServeCachedResponse true (requestOf "GET" 1) emptyWorld
      = ((requestOf "GET" 1, Some response), w')
    /\ StatusCode response = StatusGatewayTimeout
    /\ Body response = BufferReadCloser "key not in cache"
    /\ RespRequest response = requestOf "GET" 1
    /\ heap w' !! RespHeader response
       = Some {[ CanonicalMIMEHeaderKey "Content-Type" := [ContentTypeText] ]}.
Proof.
  eapply TryServeCachedResponse_only_if_cached.
  - reflexivity.
  - vm_compute. reflexivity.
  - vm_compute. reflexivity.
  - left. vm_compute. reflexivity.
Defined.

(** [HEAD] against a cache populated through [GET] only. *)
Lemma lookup_HEAD_falls_back_to_GET_witness :
  calls (snd (lookup (requestWith ∅ "HEAD") getWorld))
    = [CallRetrieve "HEAD:http://example.org/x";
       CallRetrieve "GET:http://example.org/x"]
  /\ fst (lookup (requestWith ∅ "HEAD") getWorld) = Ok stored.
Proof.
  destruct (lookup_HEAD_falls_back_to_GET (requestWith ∅ "HEAD") getWorld
              (cache getWorld))
    as (Hcalls & _ & _ & Hserved & _).
  - reflexivity.
  - vm_compute. reflexivity.
  - split; [exact Hcalls |].
    apply Hserved; vm_compute; reflexivity.
Defined.

(** Reconstructing from the stored resource, whose headers are map 3. *)
Lemma newResponseParameters_fresh_headers_witness :
  let w' := snd (newResponseParameters true (requestWith ∅ "GET") stored
                   getWorld) in
  let source : HeaderMap := default ∅ (heap getWorld !! Header stored) in
  let copy : HeaderMap := default ∅ (heap w' !! 4%positive) in
  heap getWorld !! 4%positive = None
  /\ is_Some (heap w' !! 4%positive)
  /\ 4%positive <> Header stored
  /\ heap w' !! Header stored = heap getWorld !! Header stored
  /\ (forall l, is_Some (heap getWorld !! l) ->
        heap w' !! l = heap getWorld !! l)
  /\ (forall f : HeaderMap -> HeaderMap,
        alter f 4%positive (heap w') !! Header stored
        = heap getWorld !! Header stored)
  /\ ((forall name, is_Some (source !! name) ->
         CanonicalMIMEHeaderKey name = name) ->
      forall key,
        key <> CanonicalMIMEHeaderKey "Warning" ->
        key <> CanonicalMIMEHeaderKey "Age" ->
        key <> CanonicalMIMEHeaderKey "Via" ->
        default [] (copy !! key) = default [] (source !! key))
  /\ cache w' = cache getWorld
  /\ calls w' = calls getWorld.
Proof.
  intros w'.
  apply (newResponseParameters_fresh_headers true (requestWith ∅ "GET")
           stored getWorld w' 200 5 4%positive (ResourceBody stored)).
  - apply (bool_decide_unpack _). vm_compute. exact I.
  - subst w'. rewrite (surjective_pairing (newResponseParameters _ _ _ _)).
    f_equal.
Defined.

(** C1 at work: a [200] answer to a cacheable [GET], shared cache.  The
    response comes back as it went in and the cache saw no call. *)
Theorem TryCacheResponse_200_is_not_stored :
  StatusCode okResponse = StatusOK
  /\ (exists cacheRequest,
        NewCacheRequest (RespRequest okResponse)
          (default ∅ (heap emptyWorld !! ReqHeader (RespRequest okResponse)))
        = Ok cacheRequest
        /\ IsCacheable cacheRequest = true)
  /\ TryCacheResponse true okResponse emptyWorld = (okResponse, emptyWorld)
  /\ calls emptyWorld = [].
Proof.
  split_and!; try reflexivity.
  eexists. split; [reflexivity | vm_compute; reflexivity].
Qed.

End Scenarios.


(** ** The auth helper on each kind of request *)

Module AuthScenarios.
Import Auth Sample AuthSample.

Definition denied : string * string * string * bool := ("", "", "", false).

(** [Basic dXNlcjpwYXNz] is [user:pass]: the authenticator is asked, and
    only [Host] is left in the header map. *)
Example auth_accepts :
  fst (auth request checker (stateWith "Basic dXNlcjpwYXNz"))
    = ("10.0.0.7:4711", "user", "pass", true)
  /\ headersAfter (snd (auth request checker (stateWith "Basic dXNlcjpwYXNz")))
     = [("Host", ["example.org"])]
  /\ trace (snd (auth request checker (stateWith "Basic dXNlcjpwYXNz")))
     = [HeaderDel 1 "Proxy-Authorization";
        CredentialCheck "10.0.0.7:4711" "user" "pass"].
Proof. split_and!; vm_compute; reflexivity. Qed.

(** No header, another scheme, bad base64, no colon: denied without the
    authenticator being asked, and the header is gone all the same. *)
Example auth_denies :
  Forall (fun st =>
            fst (auth request checker st) = denied
            /\ headersAfter (snd (auth request checker st))
               = [("Host", ["example.org"])]
            /\ trace (snd (auth request checker st))
               = [HeaderDel 1 "Proxy-Authorization"])
    [bare;
     stateWith "";
     stateWith "Bearer dXNlcjpwYXNz";
     stateWith "Basic dXNlcjpwYXNz!";
     stateWith "Basic dXNlcg=="].
Proof. repeat constructor; vm_compute; reflexivity. Qed.

End AuthScenarios.

(** ** More on freshness and validation *)

Module DecideMore.
Import Cacher GoFacts DecideFacts.

Section Facts.
Context `{KeyModel}.

(** X1: [freshness] fails exactly when [MaxAge] fails, when the request's
    [max-age] is carried but does not parse, or when [Age] fails; the
    error is the one of the first of these that fails. *)
Theorem freshness_error (shared : bool) (resource : Resource)
    (request : cacheRequest) (e : error) :
  let cc := crCacheControl request in
  freshness shared resource request = Err e <->
  MaxAge resource shared = Err e
  \/ (exists origin, MaxAge resource shared = Ok origin)
     /\ (Has cc "max-age" = true /\ snd (Duration cc "max-age") = Some e
         \/ (Has cc "max-age" = false
             \/ snd (Duration cc "max-age") = None)
            /\ Age resource = Err e).
Proof.
  intros cc. unfold freshness. fold cc.
  destruct (MaxAge resource shared) as [origin | e0].
  - destruct (Has cc "max-age") eqn:Hhas.
    + destruct (Duration cc "max-age") as [d [e1 |]] eqn:Hd; cbn.
      * split.
        -- intros [= ->]. right. split; [eauto |]. by left.
        -- intros [? | [_ [[_ [= ->]] | [[? | ?] _]]]]; done.
      * destruct (Age resource) as [age | e2].
        -- split.
           ++ destruct (IsStale resource); discriminate.
           ++ intros [? | [_ [[_ ?] | [_ ?]]]]; done.
        -- split.
           ++ intros [= ->]. right. split; [eauto |]. right. split; auto.
           ++ intros [? | [_ [[_ ?] | [_ [= ->]]]]]; done.
    + destruct (Age resource) as [age | e2].
      * split.
        -- destruct (IsStale resource); discriminate.
        -- intros [? | [_ [[? _] | [_ ?]]]]; done.
      * split.
        -- intros [= ->]. right. split; [eauto |]. right. split; auto.
        -- intros [? | [_ [[? _] | [_ [= ->]]]]]; done.
  - split.
    + intros [= ->]. by left.
    + intros [[= ->] | [[origin ?] _]]; done.
Qed.

(** A resource marked stale has freshness zero whenever its freshness
    can be computed at all. *)
Lemma freshness_stale (shared : bool) (resource : Resource)
    (request : cacheRequest) (f : Z) :
  IsStale resource = true ->
  freshness shared resource request = Ok f -> f = 0.
Proof.
  intros Hstale. unfold freshness.
  destruct (MaxAge resource shared) as [origin |]; [| discriminate].
  destruct (Has _ "max-age");
    [destruct (Duration _ "max-age") as [d [e |]]; [discriminate |] |];
    (destruct (Age resource) as [age |]; [| discriminate]);
    rewrite Hstale; by intros [= <-].
Qed.

(** X2: a resource marked stale needs validation whenever the request does
    not carry [max-stale], whatever its age, lifetime and heuristic. *)
Theorem needsValidation_stale_without_max_stale (shared : bool)
    (resource : Resource) (request : cacheRequest) :
  IsStale resource = true ->
  Has (crCacheControl request) "max-stale" = false ->
  needsValidation shared resource request = true.
Proof.
  intros Hstale Hhas. unfold needsValidation.
  destruct (MustValidate resource shared); [done |].
  destruct (freshness shared resource request) as [f |] eqn:Hf; [| done].
  apply freshness_stale in Hf as ->; [| done].
  rewrite Hhas. cbn. by destruct (if Has _ "min-fresh" then _ else _).
Qed.

(** X3: a [max-age] directive that is carried but does not parse forces
    validation. *)
Theorem needsValidation_malformed_max_age (shared : bool)
    (resource : Resource) (request : cacheRequest) (e : error) :
  Has (crCacheControl request) "max-age" = true ->
  snd (Duration (crCacheControl request) "max-age") = Some e ->
  needsValidation shared resource request = true.
Proof.
  intros Hhas Hd. unfold needsValidation.
  destruct (MustValidate resource shared); [done |].
  unfold freshness. rewrite Hhas.
  destruct (MaxAge resource shared) as [origin |]; [| done].
  destruct (Duration _ "max-age") as [d err]. cbn in Hd. by subst err.
Qed.

(** X4: a [min-fresh] directive that is carried but does not parse forces
    validation, also when [max-stale] is carried. *)
Theorem needsValidation_malformed_min_fresh (shared : bool)
    (resource : Resource) (request : cacheRequest) (e : error) :
  Has (crCacheControl request) "min-fresh" = true ->
  snd (Duration (crCacheControl request) "min-fresh") = Some e ->
  needsValidation shared resource request = true.
Proof.
  intros Hhas Hd. unfold needsValidation.
  destruct (MustValidate resource shared); [done |].
  destruct (freshness shared resource request) as [f |]; [| done].
  rewrite Hhas. destruct (Duration _ "min-fresh") as [d err].
  cbn in Hd. by subst err.
Qed.

(** X5: [min-fresh] wins over [max-stale]: a freshness below the parsed
    [min-fresh] forces validation whatever else the request carries. *)
Theorem needsValidation_min_fresh (shared : bool) (resource : Resource)
    (request : cacheRequest) (f m : Z) :
  freshness shared resource request = Ok f ->
  Duration (crCacheControl request) "min-fresh" = (m, None) ->
  f < m ->
  needsValidation shared resource request = true.
Proof.
  intros Hf Hd Hlt. unfold needsValidation.
  destruct (MustValidate resource shared); [done |].
  rewrite Hf, (Duration_Has _ _ _ Hd), Hd.
  by destruct (Z.ltb_spec f m); [| lia].
Qed.

(** X6: positive freshness is enough: a resource that need not be validated
    unconditionally and has freshness [f > 0] is served without
    validation whenever [min-fresh] is absent or parses to at most [f];
    [max-stale] and every other directive are irrelevant. *)
Theorem needsValidation_positive_freshness (shared : bool)
    (resource : Resource) (request : cacheRequest) (f : Z) :
  let cc := crCacheControl request in
  MustValidate resource shared = false ->
  freshness shared resource request = Ok f ->
  0 < f ->
  Has cc "min-fresh" = false
  \/ (exists m, Duration cc "min-fresh" = (m, None) /\ m <= f) ->
  needsValidation shared resource request = false.
Proof.
  intros cc Hmust Hf Hpos Hmin. unfold needsValidation.
  rewrite Hmust, Hf. fold cc.
  assert (Hle : (f <=? 0) = false) by (apply Z.leb_gt; lia).
  destruct Hmin as [Hhas | (m & Hd & Hm)].
  - by rewrite Hhas, Hle.
  - rewrite (Duration_Has _ _ _ Hd), Hd, Hle.
    by destruct (Z.ltb_spec f m); [lia |].
Qed.

(** X7: what a "no" of the decider guarantees: the resource need not be
    validated unconditionally, its freshness was computed without
    error, a carried [min-fresh] parsed and is met, and the resource is
    fresh or the request carries [max-stale]. *)
Theorem needsValidation_false (shared : bool) (resource : Resource)
    (request : cacheRequest) :
  let cc := crCacheControl request in
  needsValidation shared resource request = false ->
  MustValidate resource shared = false
  /\ exists f,
       freshness shared resource request = Ok f
       /\ (Has cc "min-fresh" = true ->
           exists m, Duration cc "min-fresh" = (m, None) /\ m <= f)
       /\ (0 < f \/ Has cc "max-stale" = true).
Proof.
  intros cc. unfold needsValidation. fold cc.
  destruct (MustValidate resource shared); [done |].
  destruct (freshness shared resource request) as [f |]; [| done].
  intros Hno. split; [done |]. exists f. split; [done |].
  destruct (Has cc "min-fresh") eqn:Hmin.
  - destruct (Duration cc "min-fresh") as [m [e |]]; [done |].
    destruct (Z.ltb_spec f m); [done |]. split; [eauto with lia |].
    destruct (Z.leb_spec f 0); [| lia].
    destruct (Has cc "max-stale"); [by right | done].
  - split; [done |].
    destruct (Z.leb_spec f 0); [| lia].
    destruct (Has cc "max-stale"); [by right | done].
Qed.

(** X8: a request [max-age] can only tighten: for durations that are
    non-negative int64 values, the freshness computed for a request
    carrying a parseable [max-age] never exceeds the freshness computed
    for a request without that directive. *)
Theorem freshness_max_age_tightens (shared : bool) (resource : Resource)
    (plain request : cacheRequest) (origin age d f0 f1 : Z) :
  Has (crCacheControl plain) "max-age" = false ->
  Duration (crCacheControl request) "max-age" = (d, None) ->
  MaxAge resource shared = Ok origin ->
  Age resource = Ok age ->
  0 <= age <= max_int64 ->
  0 <= origin <= max_int64 ->
  0 <= d ->
  0 <= HeuristicFreshness resource <= max_int64 ->
  freshness shared resource plain = Ok f0 ->
  freshness shared resource request = Ok f1 ->
  f1 <= f0.
Proof.
  intros Hplain Hd Hmax Hage Hage_range Horigin Hd0 Hh.
  unfold freshness.
  rewrite Hmax, Hplain, (Duration_Has _ _ _ Hd), Hd, Hage.
  destruct (IsStale resource); [by intros [= <-] [= <-] |].
  intros [= <-] [= <-].
  unfold max_int64 in *.
  rewrite !sub64_exact; unfold int64, min_int64, max_int64;
    repeat match goal with
           | |- context [if ?c then _ else _] =>
               let Hc := fresh in destruct c eqn:Hc
           end;
    rewrite ?Z.ltb_lt, ?Z.ltb_ge, ?Z.gtb_lt, ?Z.gtb_ltb, ?Z.ltb_lt, ?Z.ltb_ge in *;
    lia.
Qed.

End Facts.

End DecideMore.

(** ** More on lookup, reconstruction and the request path *)

Module EngineMore.
Import Cacher EngineFacts Views.

Section Facts.
Context `{Runtime} `{KeyModel} `{!Engine}.

Local Ltac one_call :=
  split; [reflexivity |]; exists []; split; [reflexivity | cbn; lia].
Local Ltac two_calls :=
  split; [reflexivity |]; eexists (_ :: []); rewrite <- app_assoc;
  split; [reflexivity | cbn; lia].

Lemma lookup_only_retrieves_lemma (request : cacheRequest) (w : World) :
  heap (snd (lookup request w)) = heap w
  /\ exists keys,
       retrieved (primaryKey request :: keys) w (snd (lookup request w))
       /\ (length keys <= 1)%nat.
Proof.
  unfold lookup, retrieved, mbind, M_bind, cache_Retrieve, readHeader.
  fold (primaryKey request).
  destruct (Retrieve (cache w) (primaryKey request)) as [[resource | e] c1].
  - cbn. destruct (negb (String.eqb _ "")); cbn.
    + destruct (Retrieve c1 _) as [[r2 | e2] c2]; cbn; two_calls.
    + one_call.
  - cbn. destruct (bool_decide _ && _); cbn.
    + destruct (Retrieve c1 _) as [[r2 | e2] c2]; cbn.
      * destruct (_ && _); cbn; two_calls.
      * two_calls.
    + one_call.
Qed.

(** X9: [lookup] reads: it leaves every header map as it is, and all it
    asks of the cache is one or two [Retrieve] calls, the first for the
    primary key; it never stores or freshens. *)
Theorem lookup_only_retrieves (request : cacheRequest) (w : World) :
  heap (snd (lookup request w)) = heap w
  /\ exists keys,
       retrieved (primaryKey request :: keys) w (snd (lookup request w))
       /\ (length keys <= 1)%nat.
Proof. apply lookup_only_retrieves_lemma. Qed.

(** X10: no fallback where none is due: when the primary retrieval fails and
    the request is not a [HEAD] request, or the failure is not the miss
    [ErrNotFoundInCache], [lookup] answers with that failure after this
    one call. *)
Theorem lookup_no_fallback (request : cacheRequest) (w : World)
    (e : error) (c1 : CacheState) :
  Retrieve (cache w) (primaryKey request) = (Err e, c1) ->
  Method (crRequest request) <> "HEAD" \/ e <> ErrNotFoundInCache ->
  fst (lookup request w) = Err e
  /\ retrieved [primaryKey request] w (snd (lookup request w))
  /\ cache (snd (lookup request w)) = c1.
Proof.
  intros Hmiss Hno.
  unfold lookup, retrieved, mbind, M_bind, cache_Retrieve.
  fold (primaryKey request). rewrite Hmiss.
  assert (Hcond : bool_decide (e = ErrNotFoundInCache)
                  && String.eqb (Method (crRequest request)) "HEAD" = false).
  { destruct Hno as [Hm | He].
    - apply String.eqb_neq in Hm. rewrite Hm. apply andb_false_r.
    - by rewrite bool_decide_false. }
  rewrite Hcond. by cbn.
Qed.

(** X11: a hit on the primary key is settled by the stored resource's
    [Vary] header: without one the resource is the answer after one
    call; with one the answer is whatever a second retrieval, under the
    key derived from that header and the request, gives, so that a miss
    there is a miss although the primary key hit. *)
Theorem lookup_Vary (request : cacheRequest) (w : World)
    (resource : Resource) (c1 : CacheState) :
  let vary := mapGet (default ∅ (heap w !! Header resource)) "Vary" in
  Retrieve (cache w) (primaryKey request) = (Ok resource, c1) ->
  (vary = "" ->
     lookup request w
     = (Ok resource,
        {| heap := heap w; cache := c1;
           calls := (calls w ++ [CallRetrieve (primaryKey request)])%list |}))
  /\ (vary <> "" ->
      fst (lookup request w) = fst (Retrieve c1 (varyKey request vary w))
      /\ cache (snd (lookup request w))
         = snd (Retrieve c1 (varyKey request vary w))
      /\ retrieved [primaryKey request; varyKey request vary w] w
           (snd (lookup request w))).
Proof.
  intros vary Hhit.
  unfold lookup, retrieved, mbind, M_bind, cache_Retrieve, readHeader.
  fold (primaryKey request). rewrite Hhit. cbn. fold vary.
  split.
  - intros ->. done.
  - intros Hvary. apply String.eqb_neq in Hvary. rewrite Hvary. cbn.
    fold (varyKey request vary w).
    destruct (Retrieve c1 (varyKey request vary w)) as [[r2 | e2] c2]; cbn;
      rewrite <- app_assoc; done.
Qed.

Lemma optional_Add_heap (c : bool) (l : ref) (k v : string) (w : World) :
  heap (snd ((if c then Header_Add l k v else mret tt) w)) !! l
  = (fun m => if c then mapAdd m k v else m) <$> heap w !! l.
Proof.
  destruct c; cbn.
  - apply lookup_alter_eq.
  - by destruct (heap w !! l).
Qed.

(** The map a resource's headers are read from once [make] has
    allocated: the resource's own map when that is a live map. *)
Lemma source_after_make (resource : Resource) (w : World) :
  is_Some (heap w !! Header resource) ->
  <[freshRef (heap w) := ∅]> (heap w) !! Header resource
  = heap w !! Header resource.
Proof.
  intros Hlive. apply lookup_insert_ne. intros Heq.
  rewrite <- Heq, freshRef_fresh in Hlive. by destruct Hlive.
Qed.

(** The run of [newResponseParameters] on a resource whose age is
    known: the results and the map behind the returned headers. *)
Lemma newResponseParameters_run (shared : bool) (request : cacheRequest)
    (resource : Resource) (w : World) (age : Z) :
  Age resource = Ok age ->
  let l := freshRef (heap w) in
  let run := newResponseParameters shared request resource w in
  fst run = Ok (Status resource, ContentLength resource, l,
                ResourceBody resource)
  /\ heap (snd run) !! l
     = Some (rebuiltHeaders shared request resource age
               (default ∅ (<[l := ∅]> (heap w) !! Header resource))).
Proof.
  intros Hage l run. subst run. unfold newResponseParameters.
  rewrite Hage. unfold mbind, M_bind. cbn. fold l.
  set (w0 := withHeap (insert l ∅) w).
  change (<[l:=∅]> (heap w)) with (heap w0).
  set (entries := map_to_list (default ∅ (heap w0 !! Header resource))).
  pose proof (forEach_entries_heap l entries w0) as Hcopied.
  match goal with
  | |- context [forEach entries ?b w0] =>
      destruct (forEach entries b w0) as [[] w1]
  end.
  cbn in Hcopied. rewrite lookup_insert_eq in Hcopied. cbn in Hcopied.
  match goal with
  | |- context [(if ?c then _ else _) w1] =>
      pose proof (optional_Add_heap c l "Warning" warning113 w1) as Hwarn
  end.
  match goal with
  | |- context [(if ?c then ?a else ?b) w1] =>
      destruct ((if c then a else b) w1) as [[] w2]
  end.
  cbn in Hwarn. rewrite Hcopied in Hwarn. cbn in Hwarn.
  pose proof (optional_Add_heap (staleWarning shared resource request)
                l "Warning" warning110 w2) as Hstale.
  replace ((if staleWarning shared resource request
            then Header_Add l "Warning" warning110 else mret tt) w2)
    with (match freshness shared resource request with
          | Ok f => if f <=? 0
                    then Header_Add l "Warning" warning110
                    else mret tt
          | Err _ => Header_Add l "Warning" warning110
          end w2) in Hstale
    by (unfold staleWarning; by destruct (freshness shared resource request)).
  match goal with
  | |- context [let '(_, _) := ?m w2 in _] =>
      destruct (m w2) as [[] w3]
  end.
  cbn in Hstale. rewrite Hwarn in Hstale. cbn in Hstale.
  cbn. split; [done |].
  rewrite !lookup_alter_eq, Hstale. done.
Qed.

(** [quiet w w']: no call on the cache, and every header map of [w] is
    in [w'] as it was. *)
Lemma quiet_refl (w : World) : quiet w w.
Proof. by repeat split. Qed.

Lemma quiet_trans (w1 w2 w3 : World) :
  quiet w1 w2 -> quiet w2 w3 -> quiet w1 w3.
Proof.
  intros (Hc1 & Hl1 & Hp1) (Hc2 & Hl2 & Hp2). split_and!.
  - by rewrite Hc2.
  - by rewrite Hl2.
  - intros l Hl. rewrite Hp2, Hp1; [done.. |]. by rewrite Hp1.
Qed.

Lemma make_Header_quiet (w : World) : quiet w (snd (make_Header w)).
Proof.
  pose proof (make_Header_spec w) as (Hfresh & _ & Hc & Hl & Hh).
  split_and!; [done.. |]. intros l Hlive. apply Hh. intros ->.
  rewrite Hfresh in Hlive. by destruct Hlive.
Qed.

Lemma goproxy_NewResponse_quiet (request : Request)
    (contentType body : string) (status : Z) (w : World) :
  quiet w (snd (goproxy_NewResponse request contentType status body w))
  /\ heap w !! RespHeader
       (fst (goproxy_NewResponse request contentType status body w)) = None.
Proof.
  unfold goproxy_NewResponse, mbind, M_bind, Header_Add, updateHeader. cbn.
  split; [| apply freshRef_fresh].
  split_and!; [done.. |]. intros l Hlive. cbn.
  assert (freshRef (heap w) <> l).
  { intros <-. rewrite freshRef_fresh in Hlive. by destruct Hlive. }
  by rewrite lookup_alter_ne, lookup_insert_ne.
Qed.

Lemma newResponseParameters_quiet (shared : bool) (request : cacheRequest)
    (resource : Resource) (w : World) :
  quiet w (snd (newResponseParameters shared request resource w)).
Proof.
  destruct (newResponseParameters shared request resource w)
    as [[[[[sc cl] l] body] | e] w'] eqn:Hrun.
  - apply newResponseParameters_writes in Hrun
      as (-> & (Hc & Hl & Hh & _) & _).
    pose proof (make_Header_spec w) as (Hfresh & _ & Hc0 & Hl0 & Hh0).
    split_and!; cbn [snd].
    + by rewrite Hc.
    + by rewrite Hl.
    + intros l Hlive.
      assert (l <> fst (make_Header w)).
      { intros ->. rewrite Hfresh in Hlive. by destruct Hlive. }
      by rewrite Hh, Hh0.
  - destruct (Age resource) as [age | e0] eqn:Hage.
    + pose proof (newResponseParameters_run shared request resource w age
                    Hage) as [Hres _].
      cbv zeta in Hres. by rewrite Hrun in Hres.
    + unfold newResponseParameters in Hrun. rewrite Hage in Hrun.
      injection Hrun as _ <-. apply quiet_refl.
Qed.

(** What [newCachedResponse] answers with, and what it leaves alone. *)
Lemma newCachedResponse_spec (shared : bool) (request : cacheRequest)
    (resource : Resource) (w : World) :
  let response := fst (newCachedResponse shared request resource w) in
  let w' := snd (newCachedResponse shared request resource w) in
  quiet w w'
  /\ heap w !! RespHeader response = None
  /\ RespRequest response = crRequest request
  /\ match Age resource with
     | Err e =>
         StatusCode response = StatusInternalServerError
         /\ Body response
            = BufferReadCloser ("Error calculating age: " ++ errorString e)
     | Ok age =>
         StatusCode response = Status resource
         /\ RespContentLength response = ContentLength resource
         /\ Body response
            = (if String.eqb (Method (crRequest request)) "HEAD"
                  || negb (Status resource =? StatusOK)
               then BufferReadCloser ""
               else ResourceBody resource)
         /\ heap w' !! RespHeader response
            = Some (rebuiltHeaders shared request resource age
                      (default ∅ (<[freshRef (heap w) := ∅]> (heap w)
                                    !! Header resource)))
     end.
Proof.
  cbv zeta. unfold newCachedResponse, mbind, M_bind.
  pose proof (newResponseParameters_quiet shared request resource w) as Hq.
  destruct (Age resource) as [age | e] eqn:Hage.
  - pose proof (newResponseParameters_run shared request resource w age Hage)
      as [Hres Hmap]. cbv zeta in Hres, Hmap.
    destruct (newResponseParameters shared request resource w) as [r w1].
    cbn in Hres, Hmap, Hq. subst r. cbn.
    split_and!; try done. apply freshRef_fresh.
  - unfold newResponseParameters in *. rewrite Hage in *. cbn.
    pose proof (goproxy_NewResponse_quiet (crRequest request) ContentTypeText
                  ("Error calculating age: " ++ errorString e)
                  StatusInternalServerError w) as [Hq' Hfresh].
    pose proof (goproxy_NewResponse_spec (crRequest request) ContentTypeText
                  ("Error calculating age: " ++ errorString e)
                  StatusInternalServerError w) as (Hs & Hb & Hr & _).
    cbv zeta in Hs, Hb, Hr. by split_and!.
Qed.

(** X12: the results of a successful [newResponseParameters] mirror the
    resource, and the headers it hands back carry exactly one [Via]
    value, the resource's, and exactly one [Age] value, the formatted
    age: [Set] replaces whatever the resource's own headers held. *)
Theorem newResponseParameters_Age_Via (shared : bool)
    (request : cacheRequest) (resource : Resource) (w w' : World)
    (statusCode contentLength : Z) (headers : ref) (body : ReadCloser) :
  let copy : HeaderMap := default ∅ (heap w' !! headers) in
  newResponseParameters shared request resource w
    = (Ok (statusCode, contentLength, headers, body), w') ->
  statusCode = Status resource
  /\ contentLength = ContentLength resource
  /\ body = ResourceBody resource
  /\ copy !! CanonicalMIMEHeaderKey "Via" = Some [Via resource]
  /\ (CanonicalMIMEHeaderKey "Age" <> CanonicalMIMEHeaderKey "Via" ->
      exists age,
        Age resource = Ok age
        /\ copy !! CanonicalMIMEHeaderKey "Age" = Some [FormatSeconds age]).
Proof.
  intros copy Hrun. subst copy.
  destruct (Age resource) as [age | e] eqn:Hage.
  - pose proof (newResponseParameters_run shared request resource w age Hage)
      as [Hres Hmap]. cbv zeta in Hres, Hmap.
    rewrite Hrun in Hres, Hmap. cbn in Hres, Hmap.
    injection Hres as -> -> -> ->. rewrite Hmap. cbn.
    unfold rebuiltHeaders, mapSet. split_and!; try done.
    + apply lookup_insert_eq.
    + intros Hne. exists age. split; [done |].
      by rewrite lookup_insert_ne, lookup_insert_eq.
  - unfold newResponseParameters in Hrun. by rewrite Hage in Hrun.
Qed.

(** X13: the [Warning] values of the reconstructed headers are the
    resource's own, then [113] when both the age and the heuristic
    freshness exceed a day, then [110] when the freshness could not be
    computed or is not positive; nothing else is added. *)
Theorem newResponseParameters_Warning (shared : bool)
    (request : cacheRequest) (resource : Resource) (w w' : World)
    (statusCode contentLength : Z) (headers : ref) (body : ReadCloser) :
  let source : HeaderMap := default ∅ (heap w !! Header resource) in
  let copy : HeaderMap := default ∅ (heap w' !! headers) in
  let warning := CanonicalMIMEHeaderKey "Warning" in
  newResponseParameters shared request resource w
    = (Ok (statusCode, contentLength, headers, body), w') ->
  is_Some (heap w !! Header resource) ->
  (forall name, is_Some (source !! name) ->
     CanonicalMIMEHeaderKey name = name) ->
  warning <> CanonicalMIMEHeaderKey "Age" ->
  warning <> CanonicalMIMEHeaderKey "Via" ->
  exists age,
    Age resource = Ok age
    /\ default [] (copy !! warning)
       = (default [] (source !! warning)
          ++ (if heuristicWarning resource age then [warning113] else [])
          ++ (if staleWarning shared resource request
              then [warning110] else []))%list.
Proof.
  intros source copy warning Hrun Hlive Hcanon Hage_ne Hvia_ne.
  subst copy.
  destruct (Age resource) as [age | e] eqn:Hage;
    [| unfold newResponseParameters in Hrun; by rewrite Hage in Hrun].
  exists age. split; [done |].
  pose proof (newResponseParameters_run shared request resource w age Hage)
    as [Hres Hmap]. cbv zeta in Hres, Hmap.
  rewrite Hrun in Hres, Hmap. cbn in Hres, Hmap.
  injection Hres as _ _ -> _.
  rewrite Hmap, (source_after_make _ _ Hlive). fold source. cbn.
  unfold rebuiltHeaders.
  rewrite !mapSet_other by done.
  assert (Hcopied : default [] (copyHeaders (map_to_list source) ∅ !! warning)
                    = default [] (source !! warning)).
  { rewrite copyHeaders_lookup.
    - by rewrite lookup_empty, list_to_map_to_list.
    - intros name values Hin. apply Hcanon.
      apply elem_of_map_to_list in Hin. by rewrite Hin.
    - apply NoDup_fst_map_to_list. }
  destruct (heuristicWarning resource age),
    (staleWarning shared resource request);
    rewrite ?mapAdd_lookup, ?decide_True by done;
    rewrite Hcopied, ?app_nil_r, <- ?app_assoc; done.
Qed.

(** X14: what [newCachedResponse] answers: a failing [Age] gives a response
    of status 500 saying so; otherwise the response mirrors the
    resource's status and content length, and its body is the resource
    itself unless the request is a [HEAD] request or the status is not
    200, where it is empty.  Either way the response's header map is
    new, no call is made on the cache and no header map that existed is
    touched. *)
Theorem newCachedResponse_response (shared : bool)
    (request : cacheRequest) (resource : Resource) (w : World) :
  let response := fst (newCachedResponse shared request resource w) in
  let w' := snd (newCachedResponse shared request resource w) in
  quiet w w'
  /\ heap w !! RespHeader response = None
  /\ RespRequest response = crRequest request
  /\ (forall e, Age resource = Err e ->
        StatusCode response = StatusInternalServerError
        /\ Body response
           = BufferReadCloser ("Error calculating age: " ++ errorString e))
  /\ (forall age, Age resource = Ok age ->
        StatusCode response = Status resource
        /\ RespContentLength response = ContentLength resource
        /\ Body response
           = (if String.eqb (Method (crRequest request)) "HEAD"
                 || negb (Status resource =? StatusOK)
              then BufferReadCloser ""
              else ResourceBody resource)).
Proof.
  cbv zeta.
  pose proof (newCachedResponse_spec shared request resource w)
    as (Hq & Hfresh & Hreq & Hcase). cbv zeta in Hq, Hfresh, Hreq, Hcase.
  split_and!; try done.
  - intros e He. by rewrite He in Hcase.
  - intros age Hage. rewrite Hage in Hcase.
    by destruct Hcase as (? & ? & ? & _).
Qed.

Lemma retrieved_quiet (keys : list string) (w w1 w2 : World) :
  heap w1 = heap w -> retrieved keys w w1 -> quiet w1 w2 ->
  preserves w w2 /\ retrieved keys w w2.
Proof.
  intros Hheap Hcalls (_ & Hl & Hp). split.
  - intros l Hlive. rewrite <- Hheap in *. by apply Hp.
  - unfold retrieved in *. by rewrite Hl.
Qed.

(** X15: the request path only reads the cache: [TryServeCachedResponse]
    hands back the request it was given, makes at most two calls on the
    cache, all of them [Retrieve] calls, and leaves every header map
    that existed, the stored resource's and the request's included, as
    it was. *)
Theorem TryServeCachedResponse_only_reads (shared : bool)
    (request : Request) (w : World) :
  let run := TryServeCachedResponse shared request w in
  fst (fst run) = request
  /\ preserves w (snd run)
  /\ exists keys, retrieved keys w (snd run) /\ (length keys <= 2)%nat.
Proof.
  cbv zeta. unfold TryServeCachedResponse, mbind, M_bind, readHeader.
  assert (Hnone : forall w0, retrieved [] w0 w0).
  { intros w0. unfold retrieved. cbn. by rewrite app_nil_r. }
  destruct (NewCacheRequest _ _) as [cacheRequest | e].
  - destruct (IsCacheable cacheRequest); cbn [negb].
    + pose proof (lookup_only_retrieves_lemma cacheRequest w)
        as (Hheap & keys & Hkeys & Hlen).
      destruct (lookup cacheRequest w) as [found w1]. cbn in Hheap, Hkeys.
      assert (Hdirect : preserves w w1 /\ retrieved (primaryKey cacheRequest :: keys) w w1).
      { split; [| done]. intros l _. by rewrite Hheap. }
      assert (Hsynth : forall status body,
                let out := goproxy_NewResponse request ContentTypeText
                             status body w1 in
                preserves w out.2
                /\ retrieved (primaryKey cacheRequest :: keys) w out.2).
      { intros status body.
        eapply retrieved_quiet; [done.. |].
        apply goproxy_NewResponse_quiet. }
      destruct found as [resource | e].
      * destruct (needsValidation shared resource cacheRequest).
        -- destruct (Has _ "only-if-cached").
           ++ specialize (Hsynth StatusGatewayTimeout "key not in cache").
              destruct (goproxy_NewResponse _ _ _ _ w1) as [r w2].
              cbn in *. split_and!; [done | tauto |].
              exists (primaryKey cacheRequest :: keys).
              split; [tauto | cbn; lia].
           ++ cbn. split_and!; [done | tauto |].
              exists (primaryKey cacheRequest :: keys).
              split; [tauto | cbn; lia].
        -- pose proof (newCachedResponse_spec shared cacheRequest resource w1)
             as (Hq & _). cbv zeta in Hq.
           destruct (newCachedResponse shared cacheRequest resource w1)
             as [r w2]. cbn in *.
           destruct (retrieved_quiet _ w w1 w2 Hheap Hkeys Hq) as [? ?].
           split_and!; [done.. |].
           exists (primaryKey cacheRequest :: keys). split; [done | cbn; lia].
      * destruct (negb (bool_decide (e = ErrNotFoundInCache))).
        -- specialize (Hsynth StatusInternalServerError (errorString e)).
           destruct (goproxy_NewResponse _ _ _ _ w1) as [r w2].
           cbn in *. split_and!; [done | tauto |].
           exists (primaryKey cacheRequest :: keys).
           split; [tauto | cbn; lia].
        -- destruct (Has _ "only-if-cached").
           ++ specialize (Hsynth StatusGatewayTimeout "key not in cache").
              destruct (goproxy_NewResponse _ _ _ _ w1) as [r w2].
              cbn in *. split_and!; [done | tauto |].
              exists (primaryKey cacheRequest :: keys).
              split; [tauto | cbn; lia].
           ++ cbn. split_and!; [done | tauto |].
              exists (primaryKey cacheRequest :: keys).
              split; [tauto | cbn; lia].
    + cbn. split_and!; [done | by intros l _ |].
      exists []. split; [apply Hnone | cbn; lia].
  - pose proof (goproxy_NewResponse_quiet request ContentTypeText
                  (errorString e) StatusInternalServerError w)
      as [(_ & Hl & Hp) _].
    destruct (goproxy_NewResponse _ _ _ _ w) as [r w1]. cbn in *.
    split_and!; [done.. |].
    exists []. split; [| cbn; lia]. unfold retrieved. cbn.
    by rewrite app_nil_r.
Qed.

(** X16: hard failures surface as a response of status 500 carrying the
    error's text: a cache request that cannot be built, without any
    call on the cache; and, for a cacheable request, a lookup failing
    with anything but the miss [ErrNotFoundInCache]. *)
Theorem TryServeCachedResponse_hard_errors (shared : bool)
    (request : Request) (w : World) (e : error) :
  let requestMap := default ∅ (heap w !! ReqHeader request) in
  let run := TryServeCachedResponse shared request w in
  NewCacheRequest request requestMap = Err e
  \/ (exists cacheRequest,
        NewCacheRequest request requestMap = Ok cacheRequest
        /\ IsCacheable cacheRequest = true
        /\ fst (lookup cacheRequest w) = Err e
        /\ e <> ErrNotFoundInCache) ->
  exists response,
    fst run = (request, Some response)
    /\ StatusCode response = StatusInternalServerError
    /\ Body response = BufferReadCloser (errorString e)
    /\ (NewCacheRequest request requestMap = Err e ->
        calls (snd run) = calls w).
Proof.
  cbv zeta. intros Hcase.
  unfold TryServeCachedResponse, mbind, M_bind, readHeader.
  destruct Hcase as [Hnew | (cacheRequest & Hnew & Hcacheable & Hfound & He)];
    rewrite Hnew.
  - pose proof (goproxy_NewResponse_spec request ContentTypeText
                  (errorString e) StatusInternalServerError w)
      as (Hs & Hb & _ & _ & Hl). cbv zeta in Hs, Hb, Hl.
    destruct (goproxy_NewResponse _ _ _ _ w) as [r w1]. cbn in *.
    exists r. by split_and!.
  - rewrite Hcacheable. cbn [negb].
    destruct (lookup cacheRequest w) as [found w1]. cbn in Hfound. subst found.
    rewrite bool_decide_false by done. cbn [negb].
    pose proof (goproxy_NewResponse_spec request ContentTypeText
                  (errorString e) StatusInternalServerError w1)
      as (Hs & Hb & _). cbv zeta in Hs, Hb.
    destruct (goproxy_NewResponse _ _ _ _ w1) as [r w2]. cbn in *.
    exists r. by split_and!.
Qed.

(** X17: when the request is forwarded: a request that is not cacheable
    passes through with the world untouched; and a cacheable request
    without [only-if-cached] passes through after the lookup alone
    when the lookup misses or finds a resource that needs validation.
    The response is nil in each case. *)
Theorem TryServeCachedResponse_forwards (shared : bool)
    (request : Request) (w : World) (cacheRequest : cacheRequest) :
  NewCacheRequest request (default ∅ (heap w !! ReqHeader request))
    = Ok cacheRequest ->
  (IsCacheable cacheRequest = false ->
     TryServeCachedResponse shared request w = ((request, None), w))
  /\ (IsCacheable cacheRequest = true ->
      Has (crCacheControl cacheRequest) "only-if-cached" = false ->
      fst (lookup cacheRequest w) = Err ErrNotFoundInCache
      \/ (exists resource,
            fst (lookup cacheRequest w) = Ok resource
            /\ needsValidation shared resource cacheRequest = true) ->
      TryServeCachedResponse shared request w
      = ((request, None), snd (lookup cacheRequest w))).
Proof.
  intros Hnew.
  unfold TryServeCachedResponse, mbind, M_bind, readHeader. rewrite Hnew.
  split.
  - by intros ->.
  - intros -> Honly Hfound. cbn [negb].
    destruct (lookup cacheRequest w) as [found w1]. cbn in *.
    destruct Hfound as [-> | (resource & -> & Hneeds)].
    + rewrite bool_decide_true by done. cbn [negb]. by rewrite Honly.
    + by rewrite Hneeds, Honly.
Qed.

(** X18: when the cache answers: for a cacheable request whose lookup finds
    a resource that needs no validation and whose age is known, the
    response is not nil, mirrors the resource's status and content
    length, carries the resource as its body unless the request is a
    [HEAD] request or the status is not 200, and has a header map of
    its own, made in this call, whose [Via] value is the resource's. *)
Theorem TryServeCachedResponse_serves (shared : bool)
    (request : Request) (w : World) (cacheRequest : cacheRequest)
    (resource : Resource) (age : Z) :
  NewCacheRequest request (default ∅ (heap w !! ReqHeader request))
    = Ok cacheRequest ->
  IsCacheable cacheRequest = true ->
  fst (lookup cacheRequest w) = Ok resource ->
  needsValidation shared resource cacheRequest = false ->
  Age resource = Ok age ->
  exists response w',
    TryServeCachedResponse shared request w = ((request, Some response), w')
    /\ RespRequest response = crRequest cacheRequest
    /\ StatusCode response = Status resource
    /\ RespContentLength response = ContentLength resource
    /\ Body response
       = (if String.eqb (Method (crRequest cacheRequest)) "HEAD"
             || negb (Status resource =? StatusOK)
          then BufferReadCloser ""
          else ResourceBody resource)
    /\ heap w !! RespHeader response = None
    /\ default ∅ (heap w' !! RespHeader response)
         !! CanonicalMIMEHeaderKey "Via" = Some [Via resource].
Proof.
  intros Hnew Hcacheable Hfound Hneeds Hage.
  unfold TryServeCachedResponse, mbind, M_bind, readHeader.
  rewrite Hnew, Hcacheable. cbn [negb].
  pose proof (lookup_only_retrieves_lemma cacheRequest w) as [Hheap _].
  destruct (lookup cacheRequest w) as [found w1]. cbn in Hfound, Hheap.
  subst found. rewrite Hneeds.
  pose proof (newCachedResponse_spec shared cacheRequest resource w1)
    as (_ & Hfresh & Hreq & Hcase). cbv zeta in Hfresh, Hreq, Hcase.
  rewrite Hage in Hcase. destruct Hcase as (Hs & Hc & Hb & Hmap).
  destruct (newCachedResponse shared cacheRequest resource w1) as [r w2].
  cbn in *. exists r, w2. rewrite Hheap in Hfresh. split_and!; try done.
  - rewrite Hmap. cbn. unfold rebuiltHeaders, mapSet.
    apply lookup_insert_eq.
Qed.

(** X19: [newCacheAndForwardResponse] calls the cache once, to [Store], and
    before anything else: what it stores is [res], under the primary
    key and, when the response carries a [Vary] header, the key derived
    from it; the outcome of that call is not looked at. *)
Theorem newCacheAndForwardResponse_stores_once (shared : bool)
    (request : cacheRequest) (response : Response) (w : World) :
  let w' := snd (newCacheAndForwardResponse shared request response w) in
  calls w' = (calls w ++ [CallStore res (storeKeys request response w)])%list
  /\ cache w' = snd (Store (cache w) res (storeKeys request response w)).
Proof.
  cbv zeta.
  unfold newCacheAndForwardResponse, mbind, M_bind, readHeader, cache_Store,
    storeKeys, primaryKey, varyKey.
  destruct (String.eqb _ ""); cbn [negb app fst snd];
    destruct (Store (cache w) res _) as [e c1];
    destruct shared; cbn [mret M_ret updateHeader withHeap];
    match goal with
    | |- context [newResponseParameters ?s ?q ?r ?w2] =>
        pose proof (newResponseParameters_quiet s q r w2) as (Hc & Hl & _);
        destruct (newResponseParameters s q r w2)
          as [[[[[sc cl] l] body] | e'] w3]
    end; cbn in *; by rewrite Hc, Hl.
Qed.

(** X20: with a [NewResource] that keeps the header map it is handed, a
    shared cache strips the private headers in the origin response's
    own header map, in place: after [newCacheAndForwardResponse] that
    map is what [RemovePrivateHeaders] makes of it.  A private cache
    leaves it as it was. *)
Theorem newCacheAndForwardResponse_strips_in_place (shared : bool)
    (request : cacheRequest) (response : Response) (w : World)
    (m : HeaderMap) :
  Header (NewResource (StatusCode response) (RespContentLength response)
            (Body response) (RespHeader response))
    = RespHeader response ->
  heap w !! RespHeader response = Some m ->
  heap (snd (newCacheAndForwardResponse shared request response w))
    !! RespHeader response
  = Some (if shared then RemovePrivateHeaders m else m).
Proof.
  intros Hkeeps Hmap.
  unfold newCacheAndForwardResponse, mbind, M_bind, readHeader, cache_Store.
  destruct (negb (String.eqb _ "")); cbn [fst snd];
    destruct (Store (cache w) res _) as [e c1];
    rewrite Hkeeps;
    destruct shared; cbn [mret M_ret updateHeader withHeap];
    match goal with
    | |- context [newResponseParameters ?s ?q ?r ?w2] =>
        pose proof (newResponseParameters_quiet s q r w2) as (_ & _ & Hp);
        destruct (newResponseParameters s q r w2)
          as [[[[[sc cl] l] body] | e'] w3]
    end; cbn in *;
    rewrite Hp; cbn; rewrite ?lookup_alter_eq, Hmap; by cbn.
Qed.

End Facts.

End EngineMore.

(** ** More on the proxy-auth helper and its handlers *)

Module AuthMore.
Import Auth Handlers AuthFacts.

(** [cut] finds the first occurrence: what precedes it is free of the
    separator, and gluing the parts back gives the string. *)
Lemma cut_Some (sep : ascii) (s before after : string) :
  cut sep s = Some (before, after) <->
  s = before ++ String sep after /\ contains sep before = false.
Proof.
  revert before after. induction s as [| c s IH]; intros before after; cbn.
  - split; [done |]. intros [Hs _]. by destruct before.
  - destruct (Ascii.eqb_spec c sep) as [-> | Hne].
    + split.
      * by intros [= <- <-].
      * intros [Hs Hfree]. destruct before as [| c' before]; cbn in *.
        -- by injection Hs as ->.
        -- injection Hs as <- _. by rewrite Ascii.eqb_refl in Hfree.
    + destruct (cut sep s) as [[b a] |] eqn:Hcut.
      * split.
        -- intros [= <- <-]. destruct (IH b a) as [[-> Hfree] _]; [done |].
           cbn. split; [done |].
           apply Ascii.eqb_neq in Hne. by rewrite Hne.
        -- intros [Hs Hfree]. destruct before as [| c' before]; cbn in *.
           ++ by injection Hs as ->.
           ++ injection Hs as <- Hs.
              apply orb_false_elim in Hfree as [_ Hfree].
              destruct (IH before after) as [_ Hback].
              specialize (Hback (conj Hs Hfree)). by injection Hback as -> ->.
      * split; [done |]. intros [Hs Hfree].
        destruct before as [| c' before]; cbn in *.
        -- by injection Hs as ->.
        -- injection Hs as <- Hs.
           apply orb_false_elim in Hfree as [_ Hfree].
           destruct (IH before after) as [_ Hback].
           by specialize (Hback (conj Hs Hfree)).
Qed.

Lemma cut_None (sep : ascii) (s : string) :
  cut sep s = None <-> contains sep s = false.
Proof.
  induction s as [| c s IH]; cbn; [done |].
  destruct (Ascii.eqb c sep); cbn; [done |].
  destruct (cut sep s) as [[b a] |]; [| done].
  split; [done |]. intros Hfree. by apply IH in Hfree.
Qed.

Lemma SplitN2_cases (s : string) (sep : ascii) :
  (contains sep s = false <-> SplitN2 s sep = [s])
  /\ (forall before after,
        SplitN2 s sep = [before; after] <->
        s = before ++ String sep after /\ contains sep before = false).
Proof.
  unfold SplitN2. split.
  - rewrite <- cut_None. destruct (cut sep s) as [[b a] |]; split; done.
  - intros before after. rewrite <- cut_Some.
    destruct (cut sep s) as [[b a] |]; split; try done.
    + by intros [= -> ->].
    + by intros [= -> ->].
Qed.

(** [SplitN2] cuts at the first separator and nowhere else: the result
    is the string alone exactly when the separator does not occur in
    it, and otherwise two parts, the first free of the separator, that
    give the string back when joined by the separator. *)
Theorem SplitN2_first_separator (s : string) (sep : ascii) :
  (contains sep s = false <-> SplitN2 s sep = [s])
  /\ (forall before after,
        SplitN2 s sep = [before; after] <->
        s = before ++ String sep after /\ contains sep before = false).
Proof. apply SplitN2_cases. Qed.

Section Facts.
Context `{Runtime}.

(** The header line [auth] reads. *)
Lemma Header_Get_first (req : Request) (st : State) (m : HeaderMap)
    (line : string) (others : list string) :
  heap st !! ReqHeader req = Some m ->
  m !! CanonicalMIMEHeaderKey "Proxy-Authorization" = Some (line :: others) ->
  Header_Get req proxyAuthorizationHeader st = line.
Proof.
  intros Hmap Hline. unfold Header_Get, mapGet, proxyAuthorizationHeader.
  by rewrite Hmap; cbn; rewrite Hline.
Qed.

(** How [auth] runs on a given header line. *)
Lemma auth_on_line (req : Request) (f : AuthWithAddrFunc) (st : State) :
  let line := Header_Get req proxyAuthorizationHeader st in
  let deleted := Header_Del req proxyAuthorizationHeader st in
  (auth req f st = ("", "", "", false, deleted))
  \/ exists credentials user passwd,
       line = "Basic " ++ credentials
       /\ DecodeString credentials = Some (user ++ String colon passwd)
       /\ contains colon user = false
       /\ auth req f st = call f (RemoteAddr req) user passwd deleted.
Proof.
  intros line deleted. unfold auth. fold line deleted.
  destruct (SplitN2_cases line space) as [_ Hsplit].
  destruct (SplitN2 line space) as [| scheme [| credentials [| ? ?]]];
    try by left.
  destruct (String.eqb_spec scheme "Basic") as [-> | ?]; [| by left].
  cbn [negb].
  destruct (DecodeString credentials) as [raw |] eqn:Hdecode; [| by left].
  destruct (SplitN2_cases raw colon) as [_ Hraw].
  destruct (SplitN2 raw colon) as [| user [| passwd [| ? ?]]];
    try by left.
  right. exists credentials, user, passwd.
  destruct (Hsplit "Basic" credentials) as [[-> _] _]; [done |].
  destruct (Hraw user passwd) as [[-> Hfree] _]; [done |].
  by split_and!.
Qed.

(** X21: well-formed credentials reach the authenticator: when the first
    [Proxy-Authorization] value is [Basic] followed by a blank and the
    base64 of [user:passwd], with no colon in [user], [auth] asks the
    authenticator about exactly that user and password, which may
    itself contain colons, and answers what it answers. *)
Theorem auth_checks_well_formed (req : Request) (f : AuthWithAddrFunc)
    (st : State) (m : HeaderMap) (credentials user passwd : string)
    (others : list string) :
  heap st !! ReqHeader req = Some m ->
  m !! CanonicalMIMEHeaderKey "Proxy-Authorization"
    = Some (("Basic " ++ credentials) :: others) ->
  DecodeString credentials = Some (user ++ String colon passwd) ->
  contains colon user = false ->
  auth req f st
  = call f (RemoteAddr req) user passwd
      (Header_Del req proxyAuthorizationHeader st).
Proof.
  intros Hmap Hline Hdecode Hfree. unfold auth.
  rewrite (Header_Get_first req st m _ others Hmap Hline).
  destruct (SplitN2_cases ("Basic " ++ credentials) space) as [_ Hsplit].
  assert (Hline' : SplitN2 ("Basic " ++ credentials) space
                   = ["Basic"; credentials])
    by (by apply Hsplit).
  rewrite Hline', String.eqb_refl. cbn [negb]. rewrite Hdecode.
  destruct (SplitN2_cases (user ++ String colon passwd) colon) as [_ Hraw].
  assert (Hraw' : SplitN2 (user ++ String colon passwd) colon
                  = [user; passwd])
    by (by apply Hraw).
  by rewrite Hraw'.
Qed.

(** X22: the authenticator is consulted on nothing else: whatever the
    request, [auth] either denies, with empty strings and without
    asking the authenticator, or the header line is [Basic], a blank
    and the base64 of some [user:passwd] with no colon in [user], and
    the answer is the authenticator's on that user and password. *)
Theorem auth_denies_or_checks (req : Request) (f : AuthWithAddrFunc)
    (st : State) :
  let line := Header_Get req proxyAuthorizationHeader st in
  let deleted := Header_Del req proxyAuthorizationHeader st in
  (auth req f st = ("", "", "", false, deleted))
  \/ exists credentials user passwd,
       line = "Basic " ++ credentials
       /\ DecodeString credentials = Some (user ++ String colon passwd)
       /\ contains colon user = false
       /\ auth req f st = call f (RemoteAddr req) user passwd deleted.
Proof. apply auth_on_line. Qed.

(** What [BasicUnauthorized] builds. *)
Lemma BasicUnauthorized_spec (req : ref) (realm : string) (st : State) :
  let response := fst (BasicUnauthorized req realm st) in
  let st' := snd (BasicUnauthorized req realm st) in
  StatusCode response = 407
  /\ RespRequest response = req
  /\ ContentLength response = Z.of_nat (String.length (Body response))
  /\ heap st !! RespHeader response = None
  /\ heap st' !! RespHeader response
     = Some {[ "Proxy-Authenticate" := ["Basic realm=" ++ realm];
               "Proxy-Connection" := ["close"] ]}
  /\ (forall l, is_Some (heap st !! l) -> heap st' !! l = heap st !! l)
  /\ trace st' = trace st.
Proof.
  cbn. split_and!; try done.
  - apply EngineFacts.freshRef_fresh.
  - apply lookup_insert_eq.
  - intros l Hlive. apply lookup_insert_ne. intros Heq.
    rewrite <- Heq, EngineFacts.freshRef_fresh in Hlive. by destruct Hlive.
Qed.

(** X23: the handler of [BasicWithAddr] on live request pointers: when
    [auth] denies, the request is not forwarded (nil) and the response
    is a 407 for the request, in a header map of its own that names the
    realm, the context and the requests staying as they were; when it
    accepts, the request is forwarded without a response, the context
    takes the user and password, and the context's request takes the
    remote address, that the authenticator answered.  Either way the
    request's [Proxy-Authorization] header is gone. *)
Theorem BasicWithAddr_outcome (realm : string) (f : AuthWithAddrFunc)
    (req : ref) (ctx : ProxyCtx) (p : Process) (r target : Request)
    (remoteAddr user pass : string) (ok : bool) (st1 : State) :
  requests p !! req = Some r ->
  requests p !! Req ctx = Some target ->
  is_Some (heap (state p) !! ReqHeader r) ->
  auth r f (state p) = (remoteAddr, user, pass, ok, st1) ->
  exists forwarded response ctx' p',
    BasicWithAddr realm f req ctx p = Some (forwarded, response, ctx', p')
    /\ default ∅ (heap (state p') !! ReqHeader r)
         !! CanonicalMIMEHeaderKey "Proxy-Authorization" = None
    /\ (ok = false ->
        forwarded = None
        /\ ctx' = ctx
        /\ requests p' = requests p
        /\ exists answer,
             response = Some answer
             /\ StatusCode answer = 407
             /\ RespRequest answer = req
             /\ heap (state p) !! RespHeader answer = None
             /\ heap (state p') !! RespHeader answer
                = Some {[ "Proxy-Authenticate" := ["Basic realm=" ++ realm];
                          "Proxy-Connection" := ["close"] ]})
    /\ (ok = true ->
        forwarded = Some req
        /\ response = None
        /\ ctx' = {| Req := Req ctx; Resp := Resp ctx;
                     User := user; Password := pass |}
        /\ state p' = st1
        /\ requests p'
           = <[Req ctx := setRemoteAddr target remoteAddr]> (requests p)).
Proof.
  intros Hreq Htarget Hlive Hauth.
  unfold BasicWithAddr. rewrite Hreq. cbn -[BasicUnauthorized auth].
  rewrite Hauth.
  pose proof (auth_state r f (state p)) as [Hheap _].
  rewrite Hauth in Hheap. cbn in Hheap.
  assert (Hgone : default ∅ (heap st1 !! ReqHeader r)
                    !! CanonicalMIMEHeaderKey "Proxy-Authorization" = None).
  { rewrite Hheap, lookup_alter_eq. destruct Hlive as [m ->]. cbn.
    apply lookup_delete_eq. }
  assert (Hlive1 : is_Some (heap st1 !! ReqHeader r)).
  { rewrite Hheap, lookup_alter_eq. by apply fmap_is_Some. }
  destruct ok; cbn [negb].
  - rewrite Htarget. cbn -[BasicUnauthorized]. eexists _, _, _, _. split; [reflexivity |].
    split_and!; [done | done |]. by intros _.
  - pose proof (BasicUnauthorized_spec req realm st1)
      as (Hs & Hr & _ & Hfresh & Hmap & Hold & _).
    cbv zeta in Hs, Hr, Hfresh, Hmap, Hold.
    destruct (BasicUnauthorized req realm st1) as [answer st2]. cbn in *.
    eexists _, _, _, _. split; [reflexivity |]. cbn.
    split_and!; [by rewrite Hold | | done].
    intros _. split_and!; try done. exists answer. split_and!; try done.
    rewrite Hheap in Hfresh. rewrite lookup_alter_None in Hfresh. done.
Qed.

(** X24: [Basic] never moves a remote address: when its handler forwards a
    request, the plain authenticator approved the user and password now
    in the context, and the context's request has the remote address of
    the request that was checked; when both are the same request, the
    requests are as they were. *)
Theorem Basic_keeps_RemoteAddr (realm : string)
    (f : string -> string -> bool) (req : ref) (ctx ctx' : ProxyCtx)
    (p p' : Process) (r : Request) (forwarded : ref)
    (response : option Response) :
  requests p !! req = Some r ->
  Basic realm f req ctx p = Some (Some forwarded, response, ctx', p') ->
  forwarded = req
  /\ response = None
  /\ f (User ctx') (Password ctx') = true
  /\ (exists target, requests p !! Req ctx = Some target
        /\ requests p'
           = <[Req ctx := setRemoteAddr target (RemoteAddr r)]> (requests p))
  /\ (Req ctx = req -> requests p' = requests p).
Proof.
  intros Hreq. unfold Basic, BasicWithAddr. rewrite Hreq.
  cbn -[BasicUnauthorized auth].
  destruct (auth_on_line r
              (fun RemoteAddr user passwd =>
                 (RemoteAddr, user, passwd, f user passwd)) (state p))
    as [-> | (credentials & user & passwd & _ & _ & _ & ->)].
  - cbn -[BasicUnauthorized].
    by destruct (BasicUnauthorized req realm _).
  - unfold call. destruct (f user passwd) eqn:Hf; cbn -[BasicUnauthorized].
    + destruct (requests p !! Req ctx) as [target |] eqn:Htarget; [| done].
      cbn. intros [= <- <- <- <-]. cbn. split_and!; try done.
      * by exists target.
      * intros Hsame. rewrite Hsame in *. rewrite Hreq in Htarget.
        injection Htarget as <-. apply insert_id.
        rewrite Hreq. by destruct r.
    + by destruct (BasicUnauthorized req realm _).
Qed.

(** X25: the handler of [BasicConnectWithAddr] on a live context request:
    the host comes back as it went in; the connection is rejected
    exactly when [auth] denies, and then the context's response is a
    407 for the context's request while its user and password stay;
    otherwise the context takes the user and password, and its request
    the remote address, that the authenticator answered. *)
Theorem BasicConnectWithAddr_outcome (realm : string) (f : AuthWithAddrFunc)
    (host : string) (ctx : ProxyCtx) (p : Process) (r : Request)
    (remoteAddr user pass : string) (ok : bool) (st1 : State) :
  requests p !! Req ctx = Some r ->
  auth r f (state p) = (remoteAddr, user, pass, ok, st1) ->
  exists action ctx' p',
    BasicConnectWithAddr realm f host ctx p = Some (action, host, ctx', p')
    /\ Req ctx' = Req ctx
    /\ (ok = false ->
        action = RejectConnect
        /\ User ctx' = User ctx /\ Password ctx' = Password ctx
        /\ requests p' = requests p
        /\ exists answer,
             Resp ctx' = Some answer
             /\ StatusCode answer = 407
             /\ RespRequest answer = Req ctx)
    /\ (ok = true ->
        action = OkConnect
        /\ Resp ctx' = Resp ctx
        /\ User ctx' = user /\ Password ctx' = pass
        /\ state p' = st1
        /\ requests p' = <[Req ctx := setRemoteAddr r remoteAddr]> (requests p)).
Proof.
  intros Hreq Hauth. unfold BasicConnectWithAddr.
  rewrite Hreq. cbn -[BasicUnauthorized auth]. rewrite Hauth.
  destruct ok; cbn [negb].
  - eexists _, _, _. split; [reflexivity |]. cbn. by split_and!.
  - pose proof (BasicUnauthorized_spec (Req ctx) realm st1)
      as (Hs & Hr & _). cbv zeta in Hs, Hr.
    destruct (BasicUnauthorized (Req ctx) realm st1) as [answer st2].
    eexists _, _, _. split; [reflexivity |]. cbn. split_and!; try done.
    intros _. split_and!; try done. by exists answer.
Qed.

End Facts.

End AuthMore.

(** ** The further theorems at work *)

Module MoreScenarios.
Import Cacher Sample MoreSample Views DecideMore EngineMore.

(** Marked stale ten seconds into a sixty-second lifetime. *)
Lemma needsValidation_stale_without_max_stale_witness :
  needsValidation true (resourceOf 3 10 60 0 true false true)
    (requestWith ∅ "GET") = true.
Proof.
  apply needsValidation_stale_without_max_stale; reflexivity.
Defined.

(** [max-age] without a value. *)
Lemma needsValidation_malformed_max_age_witness :
  needsValidation true (resourceOf 3 10 60 0 false false true)
    (requestWith {[ "max-age" := [] ]} "GET") = true.
Proof.
  apply (needsValidation_malformed_max_age _ _ _
           (MalformedDirective "max-age")); vm_compute; reflexivity.
Defined.

(** [min-fresh=soon] next to an unbounded [max-stale]. *)
Lemma needsValidation_malformed_min_fresh_witness :
  needsValidation true (resourceOf 3 10 60 0 false false true)
    (requestWith {[ "min-fresh" := ["soon"]; "max-stale" := [] ]} "GET")
  = true.
Proof.
  apply (needsValidation_malformed_min_fresh _ _ _
           (MalformedDirective "min-fresh")); vm_compute; reflexivity.
Defined.

(** Fifty seconds of freshness left, sixty asked for. *)
Lemma needsValidation_min_fresh_witness :
  needsValidation true (resourceOf 3 10 60 0 false false true)
    (requestWith {[ "min-fresh" := ["60"]; "max-stale" := [] ]} "GET")
  = true.
Proof.
  apply (needsValidation_min_fresh _ _ _ (seconds 50) (seconds 60));
    vm_compute; reflexivity.
Defined.

(** Fifty seconds of freshness left, thirty asked for. *)
Lemma needsValidation_positive_freshness_witness :
  needsValidation true (resourceOf 3 10 60 0 false false true)
    (requestWith {[ "min-fresh" := ["30"]; "max-stale" := ["5"] ]} "GET")
  = false.
Proof.
  apply (needsValidation_positive_freshness _ _ _ (seconds 50)).
  - reflexivity.
  - vm_compute. reflexivity.
  - vm_compute. reflexivity.
  - right. exists (seconds 30). split; [| vm_compute; discriminate].
    vm_compute. reflexivity.
Defined.

(** Forty seconds past its lifetime, served under [max-stale=40]. *)
Lemma needsValidation_false_witness :
  let resource := resourceOf 3 100 60 0 false false true in
  let request := requestWith {[ "max-stale" := ["40"] ]} "GET" in
  MustValidate resource true = false
  /\ exists f,
       freshness true resource request = Ok f
       /\ (Has (crCacheControl request) "min-fresh" = true ->
           exists m, Duration (crCacheControl request) "min-fresh" = (m, None)
                     /\ m <= f)
       /\ (0 < f \/ Has (crCacheControl request) "max-stale" = true).
Proof.
  intros resource request.
  apply (needsValidation_false true resource request).
  vm_compute. reflexivity.
Defined.

(** Origin max-age 60 s, age 10 s: 50 s without the directive, -5 s
    with [max-age=5]. *)
Lemma freshness_max_age_tightens_witness : seconds (-5) <= seconds 50.
Proof.
  apply (freshness_max_age_tightens true
           (resourceOf 3 10 60 0 false false true)
           (requestWith ∅ "GET")
           (requestWith {[ "max-age" := ["5"] ]} "GET")
           (seconds 60) (seconds 10) (seconds 5));
    try (vm_compute; reflexivity);
    try (vm_compute; split; discriminate);
    vm_compute; discriminate.
Defined.

(** A [GET] request against an empty cache. *)
Lemma lookup_no_fallback_witness :
  fst (lookup (requestWith ∅ "GET") emptyWorld) = Err ErrNotFoundInCache
  /\ retrieved ["GET:http://example.org/x"] emptyWorld
       (snd (lookup (requestWith ∅ "GET") emptyWorld))
  /\ cache (snd (lookup (requestWith ∅ "GET") emptyWorld)) = cache emptyWorld.
Proof.
  apply (lookup_no_fallback (requestWith ∅ "GET") emptyWorld
           ErrNotFoundInCache (cache emptyWorld)).
  - vm_compute. reflexivity.
  - left. discriminate.
Defined.

(** The primary key hits a resource that varies on [Accept-Encoding];
    no [gzip] variant is stored, so the lookup misses. *)
Lemma lookup_Vary_witness :
  fst (lookup gzipRequest varyWorld) = Err ErrNotFoundInCache
  /\ retrieved ["GET:http://example.org/x";
                "GET:http://example.org/x::Accept-Encoding=gzip"]
       varyWorld (snd (lookup gzipRequest varyWorld)).
Proof.
  destruct (lookup_Vary gzipRequest varyWorld varying (cache varyWorld))
    as [_ Hvary].
  - vm_compute. reflexivity.
  - destruct Hvary as (Hfound & _ & Hcalls).
    + vm_compute. discriminate.
    + split; [rewrite Hfound; vm_compute; reflexivity | exact Hcalls].
Defined.

(** The stored resource of the sample cache, reconstructed. *)
Lemma newResponseParameters_Age_Via_witness :
  let w' := snd (newResponseParameters true (requestWith ∅ "GET") stored
                   getWorld) in
  let copy : HeaderMap := default ∅ (heap w' !! 4%positive) in
  (200 : Z) = Status stored
  /\ (5 : Z) = ContentLength stored
  /\ ResourceBody stored = ResourceBody stored
  /\ copy !! CanonicalMIMEHeaderKey "Via" = Some [Via stored]
  /\ (CanonicalMIMEHeaderKey "Age" <> CanonicalMIMEHeaderKey "Via" ->
      exists age,
        Age stored = Ok age
        /\ copy !! CanonicalMIMEHeaderKey "Age" = Some [FormatSeconds age]).
Proof.
  intros w'.
  apply (newResponseParameters_Age_Via true (requestWith ∅ "GET") stored
           getWorld w' 200 5 4%positive (ResourceBody stored)).
  subst w'. rewrite (surjective_pairing (newResponseParameters _ _ _ _)).
  f_equal.
Defined.

(** A resource two days old with a heuristic freshness of three days,
    whose own headers carry the warning [199 - old]. *)
Lemma newResponseParameters_Warning_witness :
  let w' := snd (newResponseParameters true gzipRequest aged varyWorld) in
  exists age,
    Age aged = Ok age
    /\ default [] (default ∅ (heap w' !! 7%positive)
                     !! CanonicalMIMEHeaderKey "Warning")
       = (default [] (default ∅ (heap varyWorld !! Header aged)
                        !! CanonicalMIMEHeaderKey "Warning")
          ++ (if heuristicWarning aged age then [warning113] else [])
          ++ (if staleWarning true aged gzipRequest
              then [warning110] else []))%list.
Proof.
  intros w'.
  apply (newResponseParameters_Warning true gzipRequest aged varyWorld w'
           200 5 7%positive (ResourceBody aged)).
  - subst w'. rewrite (surjective_pairing (newResponseParameters _ _ _ _)).
    f_equal.
  - apply (bool_decide_unpack _). vm_compute. exact I.
  - intros name Hname.
    assert (Hall : map_Forall (fun name _ => CanonicalMIMEHeaderKey name = name)
                     (default ∅ (heap varyWorld !! Header aged)))
      by (apply (bool_decide_unpack _); vm_compute; exact I).
    destruct Hname as [values Hvalues]. exact (Hall name values Hvalues).
  - vm_compute. discriminate.
  - vm_compute. discriminate.
Defined.

(** A cacheable [GET] when the cache cannot be reached. *)
Lemma TryServeCachedResponse_hard_errors_witness :
  exists response,
    fst (@TryServeCachedResponse _ _ unreachable true (requestOf "GET" 2)
           unreachableWorld)
    = (requestOf "GET" 2, Some response)
    /\ StatusCode response = StatusInternalServerError
    /\ Body response = BufferReadCloser "cache unreachable"
    /\ (@NewCacheRequest _ unreachable (requestOf "GET" 2)
          (default ∅ (heap unreachableWorld !! ReqHeader (requestOf "GET" 2)))
        = Err (ErrOther "cache unreachable") ->
        calls (snd (@TryServeCachedResponse _ _ unreachable true
                      (requestOf "GET" 2) unreachableWorld))
        = calls unreachableWorld).
Proof.
  apply (@TryServeCachedResponse_hard_errors _ _ unreachable true
           (requestOf "GET" 2) unreachableWorld
           (ErrOther "cache unreachable")).
  right. eexists. split; [reflexivity |].
  split_and!; [vm_compute; reflexivity | vm_compute; reflexivity |
               discriminate].
Defined.

(** A [GET] without directives against an empty cache is forwarded. *)
Lemma TryServeCachedResponse_forwards_witness :
  fst (TryServeCachedResponse true (requestOf "GET" 2) emptyWorld)
  = (requestOf "GET" 2, None).
Proof.
  destruct (TryServeCachedResponse_forwards true (requestOf "GET" 2)
              emptyWorld (requestWith ∅ "GET")) as [_ Hmiss].
  - vm_compute. reflexivity.
  - rewrite Hmiss; [reflexivity | reflexivity | vm_compute; reflexivity |].
    left. vm_compute. reflexivity.
Defined.

(** A [GET] without directives against the cache holding the resource
    ten seconds into its sixty-second lifetime. *)
Lemma TryServeCachedResponse_serves_witness :
  exists response w',
    TryServeCachedResponse true (requestOf "GET" 2) getWorld
      = ((requestOf "GET" 2, Some response), w')
    /\ RespRequest response = requestOf "GET" 2
    /\ StatusCode response = 200
    /\ RespContentLength response = 5
    /\ Body response = ResourceBody stored
    /\ heap getWorld !! RespHeader response = None
    /\ default ∅ (heap w' !! RespHeader response)
         !! CanonicalMIMEHeaderKey "Via" = Some ["1.1 goproxy"].
Proof.
  apply (TryServeCachedResponse_serves true (requestOf "GET" 2) getWorld
           (requestWith ∅ "GET") stored (seconds 10)).
  - vm_compute. reflexivity.
  - reflexivity.
  - vm_compute. reflexivity.
  - vm_compute. reflexivity.
  - reflexivity.
Defined.

(** The sample [NewResource] keeps the header map it is handed: in a
    shared cache the origin response loses its [Set-Cookie]. *)
Lemma newCacheAndForwardResponse_strips_in_place_witness :
  heap (snd (newCacheAndForwardResponse true (requestWith ∅ "GET")
               okResponse emptyWorld)) !! 3%positive
  = Some (RemovePrivateHeaders
            {[ "Content-Type" := ["text/html"]; "Set-Cookie" := ["id=7"] ]}).
Proof.
  apply (newCacheAndForwardResponse_strips_in_place true
           (requestWith ∅ "GET") okResponse emptyWorld).
  - reflexivity.
  - reflexivity.
Defined.

End MoreScenarios.

Module AuthMoreScenarios.
Import Auth Handlers Sample AuthSample HandlerSample AuthMore.

(** [Basic dXNlcjpwYTpzcw==] is [user:pa:ss]: the password keeps its
    colon. *)
Lemma auth_checks_well_formed_witness :
  auth request checker (stateWith "Basic dXNlcjpwYTpzcw==")
  = call checker "10.0.0.7:4711" "user" "pa:ss"
      (Header_Del request proxyAuthorizationHeader
         (stateWith "Basic dXNlcjpwYTpzcw==")).
Proof.
  apply (auth_checks_well_formed request checker
           (stateWith "Basic dXNlcjpwYTpzcw==")
           {[ "Proxy-Authorization" := ["Basic dXNlcjpwYTpzcw=="];
              "Host" := ["example.org"] ]}
           "dXNlcjpwYTpzcw==" "user" "pa:ss" []).
  - reflexivity.
  - vm_compute. reflexivity.
  - vm_compute. reflexivity.
  - reflexivity.
Defined.

(** A request without credentials meets the handler of
    [BasicWithAddr]. *)
Lemma BasicWithAddr_outcome_witness :
  exists response ctx' p',
    BasicWithAddr "proxy" checker 10 context (processWith "")
      = Some (None, Some response, ctx', p')
    /\ StatusCode response = 407
    /\ ctx' = context
    /\ requests p' = requests (processWith "").
Proof.
  destruct (BasicWithAddr_outcome "proxy" checker 10 context (processWith "")
              request request "" "" "" false
              (Header_Del request proxyAuthorizationHeader (stateWith "")))
    as (forwarded & response & ctx' & p' & Hrun & _ & Hdenied & _).
  - reflexivity.
  - reflexivity.
  - apply (bool_decide_unpack _). vm_compute. exact I.
  - vm_compute. reflexivity.
  - destruct (Hdenied eq_refl) as (-> & Hctx & Hreqs & answer & -> & Hs & _).
    exists answer, ctx', p'. by split_and!.
Defined.

(** [user:pass] meets the handler of [Basic]. *)
Lemma Basic_keeps_RemoteAddr_witness :
  let run := Basic "proxy" approves 10 context
               (processWith "Basic dXNlcjpwYXNz") in
  exists ctx' p',
    run = Some (Some 10%positive, None, ctx', p')
    /\ approves (User ctx') (Password ctx') = true
    /\ requests p' = requests (processWith "Basic dXNlcjpwYXNz").
Proof.
  intros run.
  destruct run as [[[[forwarded response] ctx'] p'] |] eqn:Hrun;
    [| vm_compute in Hrun; discriminate].
  destruct forwarded as [forwarded |];
    [| vm_compute in Hrun; discriminate].
  destruct (Basic_keeps_RemoteAddr "proxy" approves 10 context ctx'
              (processWith "Basic dXNlcjpwYXNz") p' request forwarded
              response) as (-> & -> & Hok & _ & Hsame).
  - reflexivity.
  - exact Hrun.
  - exists ctx', p'. split_and!; [done | done | by apply Hsame].
Defined.

(** A [CONNECT] with a scheme other than [Basic] meets the handler of
    [BasicConnectWithAddr]. *)
Lemma BasicConnectWithAddr_outcome_witness :
  exists ctx' p' answer,
    BasicConnectWithAddr "proxy" checker "example.org:443" context
      (processWith "Bearer abc")
    = Some (RejectConnect, "example.org:443", ctx', p')
    /\ Resp ctx' = Some answer
    /\ StatusCode answer = 407.
Proof.
  destruct (BasicConnectWithAddr_outcome "proxy" checker "example.org:443"
              context (processWith "Bearer abc") request "" "" "" false
              (Header_Del request proxyAuthorizationHeader
                 (stateWith "Bearer abc")))
    as (action & ctx' & p' & Hrun & _ & Hdenied & _).
  - reflexivity.
  - vm_compute. reflexivity.
  - destruct (Hdenied eq_refl) as (-> & _ & _ & _ & answer & Hresp & Hs & _).
    by exists ctx', p', answer.
Defined.

End AuthMoreScenarios.
